(** * The generic-sdk visitor of graphql-code-generator-community

    A shallow embedding of
    [packages/plugins/typescript/generic-sdk/src/visitor.ts]:
    the stream classification [isStreamOperation], the class
    [GenericSdkVisitor] (constructor, [buildOperation],
    [getDocumentNodeVariable] and the accessor [sdkContent]), and the
    properties of the generated SDK text.

    JavaScript strings are [string]; an optional field ([name?], [directives?])
    is an [option]; the mutable object [this] is a record threaded through a
    state-and-exception monad in which a [throw] keeps the state reached so
    far, as a JavaScript exception leaves the object it was thrown from. *)

From Stdlib Require Import String Ascii List Bool PeanoNat.
Import ListNotations.
Local Open Scope list_scope.
Local Open Scope string_scope.

Set Implicit Arguments.

(** ** The GraphQL AST, as far as the visitor reads it *)

Module Ast.

(** [OperationTypeNode] of graphql-js: the three string constants. *)
Inductive OperationTypeNode : Type :=
| query
| mutation
| subscription.

Definition operation_eqb (a b : OperationTypeNode) : bool :=
  match a, b with
  | query, query | mutation, mutation | subscription, subscription => true
  | _, _ => false
  end.

Record NameNode : Type := { value : string }.

(** [Kind] of a type reference; only [NON_NULL_TYPE] is tested. *)
Inductive Kind : Type :=
| NAMED_TYPE
| LIST_TYPE
| NON_NULL_TYPE.

Definition kind_eqb (a b : Kind) : bool :=
  match a, b with
  | NAMED_TYPE, NAMED_TYPE | LIST_TYPE, LIST_TYPE
  | NON_NULL_TYPE, NON_NULL_TYPE => true
  | _, _ => false
  end.

Inductive TypeNode : Type :=
| NamedType (name : NameNode)
| ListType (type : TypeNode)
| NonNullType (type : TypeNode).

Definition kind (t : TypeNode) : Kind :=
  match t with
  | NamedType _ => NAMED_TYPE
  | ListType _ => LIST_TYPE
  | NonNullType _ => NON_NULL_TYPE
  end.

(** A constant value node.  Every one of them is a JavaScript object, so a
    default value that is present is truthy whatever it denotes (also
    [NullValue], [BooleanValue false] and [IntValue "0"]). *)
#[local] Unset Elimination Schemes.
Inductive ValueNode : Type :=
| IntValue (v : string)
| FloatValue (v : string)
| StringValue (v : string)
| BooleanValue (v : bool)
| NullValue
| EnumValue (v : string)
| ListValue (vs : list ValueNode)
| ObjectValue (fields : list (string * ValueNode)).
#[local] Set Elimination Schemes.

Record DirectiveNode : Type := {
  directive_name : NameNode;
  directive_arguments : list (string * ValueNode)
}.

Record VariableDefinitionNode : Type := {
  variable : NameNode;
  type : TypeNode;
  defaultValue : option ValueNode
}.

(** [OperationDefinitionNode]: [name], [variableDefinitions] and
    [directives] are optional fields.  The selection set is never read by
    the visitor itself (only by [print]); it is kept as its source text. *)
Record OperationDefinitionNode : Type := {
  operation : OperationTypeNode;
  name : option NameNode;
  variableDefinitions : option (list VariableDefinitionNode);
  directives : option (list DirectiveNode);
  selectionSet : string
}.

End Ast.

Import Ast.

(** ** JavaScript helpers *)

(** Truthiness of a value of type [string | undefined]. *)
Definition truthy (s : option string) : bool :=
  match s with
  | Some s => negb (String.eqb s "")
  | None => false
  end.

(** Truthiness of a value of type [object | undefined]. *)
Definition present {A : Type} (o : option A) : bool :=
  match o with
  | Some _ => true
  | None => false
  end.

(** The text [`${s}`] of a value of type [string | undefined] that is known
    to be truthy where it is used. *)
Definition text (s : option string) : string :=
  match s with
  | Some s => s
  | None => "undefined"
  end.

Definition NL : string := String (ascii_of_nat 10) EmptyString.

(** [Array.prototype.join]. *)
Definition join (sep : string) (l : list string) : string := String.concat sep l.

(** What a [throw] carries: [new Error(message)], or the [TypeError] of
    reading a property of [undefined]. *)
Inductive exn : Type :=
| Error (message : string)
| TypeError (property : string).

(** ** Stream classification *)

(** [isStreamOperation], lines 18-29.  [directives?.some(...)] is
    [undefined], hence falsy, when the field is missing. *)
Definition isStreamOperation (operationAST : OperationDefinitionNode) : bool :=
  if operation_eqb (operation operationAST) subscription then true
  else if operation_eqb (operation operationAST) query
          && match directives operationAST with
             | Some ds =>
                 existsb (fun directiveNode =>
                            String.eqb (value (directive_name directiveNode)) "live") ds
             | None => false
             end
  then true
  else false.

(** An operation carries a directive named [live]. *)
Definition hasLiveDirective (n : OperationDefinitionNode) : Prop :=
  exists ds d, directives n = Some ds /\ In d ds /\ value (directive_name d) = "live".

(** ** External collaborators

    [print] comes from the graphql package, [indentMultiline] from
    @graphql-codegen/visitor-plugin-common.  Neither belongs to this
    repository: the visitor is verified for every implementation of them. *)
Class Collaborators : Type := {
  print : OperationDefinitionNode -> string;
  indentMultiline : string -> nat -> string
}.

(** Modelled from the spec: [getConfigValue] of the base package
    (construction "defaulting [rawRequest] to false if unspecified"): the
    given value, or the default where the value is missing. *)
Definition getConfigValue {A : Type} (value : option A) (defaultValue : A) : A :=
  match value with
  | Some v => v
  | None => defaultValue
  end.

(** [DocumentMode] of the base package; the visitor distinguishes [string]
    and [external] from the rest. *)
Module DocumentMode.
Inductive t : Type :=
| graphQLTag
| documentNode
| documentNodeImportFragments
| external
| string.

Definition eqb (a b : t) : bool :=
  match a, b with
  | graphQLTag, graphQLTag | documentNode, documentNode
  | documentNodeImportFragments, documentNodeImportFragments
  | external, external | string, string => true
  | _, _ => false
  end.
End DocumentMode.

(** ** Configuration *)

(** [RawGenericSdkPluginConfig]: the two options of this plugin, both
    optional in the raw configuration. *)
Module Raw.
Record t : Type := {
  usingObservableFrom : option string;
  rawRequest : option bool
}.
End Raw.

(** The object as the base constructor ([super(...)]) leaves it, for the
    fields this class reads: the parsed base configuration and the import
    list the base class starts with. *)
Module Base.
Record t : Type := {
  documentMode : DocumentMode.t;
  useTypeImports : bool;
  importOperationTypesFrom : option string;
  _additionalImports : list string
}.
End Base.

(** [GenericSdkPluginConfig], with the inherited fields that are read. *)
Record GenericSdkPluginConfig : Type := {
  usingObservableFrom : option string;
  rawRequest : bool;
  documentMode : DocumentMode.t;
  useTypeImports : bool;
  importOperationTypesFrom : option string
}.

(** An element of [_operationsToInclude]. *)
Record IncludedOperation : Type := {
  node : OperationDefinitionNode;
  documentVariableName : string;
  operationType : string;
  operationResultType : string;
  operationVariablesTypes : string
}.

(** The object [this]. *)
Record GenericSdkVisitor : Type := {
  config : GenericSdkPluginConfig;
  _additionalImports : list string;
  _externalImportPrefix : string;
  _operationsToInclude : list IncludedOperation
}.

(** ** The monad of methods: state [this] and exceptions

    A computation returns its outcome together with the object as it is when
    the method returns or throws. *)
Module Method.

Definition M (A : Type) : Type := GenericSdkVisitor -> (exn + A) * GenericSdkVisitor.

Definition ret {A : Type} (a : A) : M A := fun this => (inr a, this).

Definition bind {A B : Type} (m : M A) (k : A -> M B) : M B :=
  fun this =>
    match m this with
    | (inr a, this') => k a this'
    | (inl e, this') => (inl e, this')
    end.

Definition get : M GenericSdkVisitor := fun this => (inr this, this).

Definition modify (f : GenericSdkVisitor -> GenericSdkVisitor) : M unit :=
  fun this => (inr tt, f this).

Definition throw {A : Type} (e : exn) : M A := fun this => (inl e, this).

(** [Array.prototype.map] with a callback that may throw: left to right,
    the first exception ends the traversal. *)
Fixpoint mapM {A B : Type} (f : A -> M B) (l : list A) : M (list B) :=
  match l with
  | [] => ret []
  | x :: xs =>
      bind (f x) (fun y => bind (mapM f xs) (fun ys => ret (y :: ys)))
  end.

End Method.

Import Method.

Notation "x <- m ;; k" := (bind m (fun x => k))
  (at level 61, m at next level, right associativity).
Notation "m ;;; k" := (bind m (fun _ => k))
  (at level 61, right associativity).

(** ** The class [GenericSdkVisitor] *)

(** The constructor, lines 44-73, after [super(...)]. *)
Definition constructor (super : Base.t) (rawConfig : Raw.t) : GenericSdkVisitor :=
  let config :=
    {| usingObservableFrom := Raw.usingObservableFrom rawConfig;
       rawRequest := getConfigValue (Raw.rawRequest rawConfig) false;
       documentMode := Base.documentMode super;
       useTypeImports := Base.useTypeImports super;
       importOperationTypesFrom := Base.importOperationTypesFrom super |} in
  let imports := Base._additionalImports super in
  let imports :=
    if truthy (usingObservableFrom config)
    then (imports ++ [text (usingObservableFrom config)])%list
    else imports in
  let importType := if useTypeImports config then "import type" else "import" in
  let imports :=
    if negb (DocumentMode.eqb (documentMode config) DocumentMode.string)
    then (imports ++ [(importType ++ " { DocumentNode"
                         ++ (if rawRequest config then ", ExecutionResult" else "")
                         ++ " } from 'graphql';")%string])%list
    else if rawRequest config
    then (imports ++ [(importType ++ " { ExecutionResult } from 'graphql';")%string])%list
    else imports in
  {| config := config;
     _additionalImports := imports;
     _externalImportPrefix :=
       if truthy (importOperationTypesFrom config)
       then text (importOperationTypesFrom config) ++ "."
       else "";
     _operationsToInclude := [] |}.

(** [this._operationsToInclude.push(o)]. *)
Definition push (o : IncludedOperation) (this : GenericSdkVisitor) : GenericSdkVisitor :=
  {| config := config this;
     _additionalImports := _additionalImports this;
     _externalImportPrefix := _externalImportPrefix this;
     _operationsToInclude := (_operationsToInclude this ++ [o])%list |}.

Definition unnamedOperationMessage `{Collaborators} (node : OperationDefinitionNode) : string :=
  "Plugin 'generic-sdk' cannot generate SDK for unnamed operation." ++ NL ++ NL ++ print node.

(** [buildOperation], lines 75-100.  It returns [null], here [None]. *)
Definition buildOperation `{Collaborators}
    (node : OperationDefinitionNode)
    (documentVariableName operationType operationResultType operationVariablesTypes : string)
  : M (option string) :=
  this <- get ;;
  let operationResultType := _externalImportPrefix this ++ operationResultType in
  let operationVariablesTypes := _externalImportPrefix this ++ operationVariablesTypes in
  match name node with
  | None => throw (Error (unnamedOperationMessage node))
  | Some _ =>
      modify (push {| node := node;
                      documentVariableName := documentVariableName;
                      operationType := operationType;
                      operationResultType := operationResultType;
                      operationVariablesTypes := operationVariablesTypes |}) ;;;
      ret None
  end.

(** [getDocumentNodeVariable], lines 102-106. *)
Definition getDocumentNodeVariable (this : GenericSdkVisitor) (documentVariableName : string)
  : string :=
  if DocumentMode.eqb (documentMode (config this)) DocumentMode.external
  then "Operations." ++ documentVariableName
  else documentVariableName.

(** An element of [allPossibleActionsConfig], lines 126-134. *)
Module Action.
Record t : Type := {
  operationName : string;
  optionalVariables : bool;
  operationVariablesTypes : string;
  operationResultType : string;
  docVarName : string;
  returnType : string;
  resultData : string
}.
End Action.

(** The constant [optionalVariables], lines 112-115.  An array is truthy
    also when empty; [every] takes the truthiness of what the callback
    returns, and a default value is an object. *)
Definition optionalVariables (n : OperationDefinitionNode) : bool :=
  match variableDefinitions n with
  | None => true
  | Some vs =>
      Nat.eqb (List.length vs) 0
      || forallb (fun v => negb (kind_eqb (kind (type v)) NON_NULL_TYPE)
                           || present (defaultValue v)) vs
  end.

(** The constant [returnType] of an operation, lines 117-121. *)
Definition returnType (usingObservable : bool) (n : OperationDefinitionNode) : string :=
  if isStreamOperation n
  then if usingObservable then "Observable" else "AsyncIterable"
  else "Promise".

(** The constant [resultData] of an operation, lines 122-124. *)
Definition resultData (this : GenericSdkVisitor) (o : IncludedOperation) : string :=
  if rawRequest (config this)
  then "ExecutionResult<" ++ operationResultType o ++ ", E>"
  else operationResultType o.

(** The callback of the first [map], lines 110-135.  Reading
    [o.node.name.value] throws a [TypeError] when [o.node.name] is
    [undefined]. *)
Definition actionConfig (this : GenericSdkVisitor) (usingObservable : bool)
    (o : IncludedOperation) : M Action.t :=
  operationName <- match name (node o) with
                   | Some n => ret (value n)
                   | None => throw (TypeError "value")
                   end ;;
  let optionalVariables := optionalVariables (node o) in
  let docVarName := getDocumentNodeVariable this (documentVariableName o) in
  let returnType := returnType usingObservable (node o) in
  let resultData := resultData this o in
  ret {| Action.operationName := operationName;
         Action.optionalVariables := optionalVariables;
         Action.operationVariablesTypes := operationVariablesTypes o;
         Action.operationResultType := operationResultType o;
         Action.docVarName := docVarName;
         Action.returnType := returnType;
         Action.resultData := resultData |}.

(** The template of an exported function, lines 139-145. *)
Definition actionText (o : Action.t) : string :=
  "export function " ++ Action.operationName o
    ++ "<C, E>(requester: Requester<C, E>, variables"
    ++ (if Action.optionalVariables o then "?" else "")
    ++ ": " ++ Action.operationVariablesTypes o ++ ", options?: C): "
    ++ Action.returnType o ++ "<" ++ Action.resultData o ++ "> {" ++ NL
    ++ "  return requester<" ++ Action.operationResultType o ++ ", "
    ++ Action.operationVariablesTypes o ++ ">("
    ++ Action.docVarName o
    ++ ", variables, options) as " ++ Action.returnType o ++ "<"
    ++ Action.resultData o ++ ">;" ++ NL
    ++ "}".

(** The template of a method of the object [getSdk] returns, lines 150-154. *)
Definition actionImplText (o : Action.t) : string :=
  Action.operationName o ++ "(variables"
    ++ (if Action.optionalVariables o then "?" else "") ++ ": "
    ++ Action.operationVariablesTypes o
    ++ ", options?: C): " ++ Action.returnType o ++ "<" ++ Action.resultData o ++ "> {" ++ NL
    ++ "  return " ++ Action.operationName o ++ "(requester, variables, options) as "
    ++ Action.returnType o ++ "<" ++ Action.resultData o ++ ">;" ++ NL
    ++ "}".

(** The constant [documentNodeType], lines 157-158. *)
Definition documentNodeType (this : GenericSdkVisitor) : string :=
  if DocumentMode.eqb (documentMode (config this)) DocumentMode.string
  then "string" else "DocumentNode".

(** The constant [resultData] of the [Requester] type, line 159. *)
Definition requesterResultData (this : GenericSdkVisitor) : string :=
  if rawRequest (config this) then "ExecutionResult<R, E>" else "R".

(** The constant [returnType] of the [Requester] type, lines 160-162. *)
Definition requesterReturnType (this : GenericSdkVisitor) (usingObservable : bool) : string :=
  "Promise<" ++ requesterResultData this ++ "> | "
    ++ (if usingObservable then "Observable" else "AsyncIterable")
    ++ "<" ++ requesterResultData this ++ ">".

(** The line that declares the [Requester] type, line 166. *)
Definition requesterText (this : GenericSdkVisitor) (usingObservable : bool) : string :=
  "export type Requester<C = {}, E = unknown> = <R, V>(doc: " ++ documentNodeType this
    ++ ", vars?: V, options?: C) => " ++ requesterReturnType this usingObservable.

(** The returned template, lines 164-172. *)
Definition sdkText (this : GenericSdkVisitor) (usingObservable : bool)
    (allPossibleActions allPossibleActionsImpl : list string) : string :=
  NL ++ join NL allPossibleActions ++ NL
    ++ requesterText this usingObservable ++ NL
    ++ "export function getSdk<C, E>(requester: Requester<C, E>) {" ++ NL
    ++ "  return {" ++ NL
    ++ join ("," ++ NL) allPossibleActionsImpl ++ NL
    ++ "  };" ++ NL
    ++ "}" ++ NL
    ++ "export type Sdk = ReturnType<typeof getSdk>;".

(** The accessor [sdkContent], lines 108-173. *)
Definition sdkContent `{Collaborators} : M string :=
  this <- get ;;
  let usingObservable := truthy (usingObservableFrom (config this)) in
  allPossibleActionsConfig <-
    mapM (actionConfig this usingObservable) (_operationsToInclude this) ;;
  let allPossibleActions :=
    map (fun s => indentMultiline s 2) (map actionText allPossibleActionsConfig) in
  let allPossibleActionsImpl := map actionImplText allPossibleActionsConfig in
  ret (sdkText this usingObservable allPossibleActions allPossibleActionsImpl).

(** ** Runs of a visitor *)

(** The arguments of one call of [buildOperation]. *)
Record Visit : Type := {
  visit_node : OperationDefinitionNode;
  visit_documentVariableName : string;
  visit_operationType : string;
  visit_operationResultType : string;
  visit_operationVariablesTypes : string
}.

Definition visit `{Collaborators} (a : Visit) : M (option string) :=
  buildOperation (visit_node a) (visit_documentVariableName a) (visit_operationType a)
    (visit_operationResultType a) (visit_operationVariablesTypes a).

(** The states of a visitor object: as constructed, then after any number
    of calls of [buildOperation] or of reads of [sdkContent], whether they
    return or throw (a caller may catch the exception and go on). *)
Inductive reachable `{Collaborators} : GenericSdkVisitor -> Prop :=
| reachable_new (super : Base.t) (rawConfig : Raw.t) :
    reachable (constructor super rawConfig)
| reachable_visit (this : GenericSdkVisitor) (a : Visit) :
    reachable this -> reachable (snd (visit a this))
| reachable_render (this : GenericSdkVisitor) :
    reachable this -> reachable (snd (sdkContent this)).

(** A run of the host pipeline: the visits in order, the first exception
    aborting the run. *)
Fixpoint visitAll `{Collaborators} (l : list Visit) : M unit :=
  match l with
  | [] => ret tt
  | a :: l' => visit a ;;; visitAll l'
  end.

(** A record whose node has a name. *)
Definition named (o : IncludedOperation) : bool := present (name (node o)).

(** The names of the accumulated operations, as [sdkContent] reads them. *)
Definition operationNames (this : GenericSdkVisitor) : list (option string) :=
  map (fun o => option_map value (name (node o))) (_operationsToInclude this).

(** The variables an operation declares: none when the field is missing. *)
Definition declaredVariables (n : OperationDefinitionNode) : list VariableDefinitionNode :=
  match variableDefinitions n with
  | Some vs => vs
  | None => []
  end.

Definition nullable (v : VariableDefinitionNode) : Prop := kind (type v) <> NON_NULL_TYPE.

Definition hasDefault (v : VariableDefinitionNode) : Prop := defaultValue v <> None.

(** A computation that leaves the object as it found it, whether it
    returns or throws. *)
Definition readOnly {A : Type} (m : M A) : Prop := forall this, snd (m this) = this.

(** The relation between an accumulated operation and its action. *)
Definition actionOf (this : GenericSdkVisitor) (u : bool) (o : IncludedOperation)
    (ac : Action.t) : Prop :=
  forall s, actionConfig this u o s = (inr ac, s).

(** The text [sdkContent] returns, from the actions. *)
Definition sdkOf `{Collaborators} (this : GenericSdkVisitor) (acs : list Action.t) : string :=
  sdkText this (truthy (usingObservableFrom (config this)))
    (map (fun s => indentMultiline s 2) (map actionText acs))
    (map actionImplText acs).

(** ** An implementation of the collaborators, for concrete runs

    [indentMultiline] repeats the two-space indentation [count] times, puts
    it in front of the text and after each of its line breaks; the printer
    gives the operation keyword, the name if any, and the selection set. *)
Module Sample.

Fixpoint indentation (count : nat) : string :=
  match count with
  | O => ""
  | S c => "  " ++ indentation c
  end.

Fixpoint replaceLineBreaks (replaceWith str : string) : string :=
  match str with
  | EmptyString => EmptyString
  | String c rest =>
      if Ascii.eqb c (ascii_of_nat 10)
      then replaceWith ++ replaceLineBreaks replaceWith rest
      else String c (replaceLineBreaks replaceWith rest)
  end.

Definition indentMultiline (str : string) (count : nat) : string :=
  indentation count ++ replaceLineBreaks (NL ++ indentation count) str.

Definition keyword (k : OperationTypeNode) : string :=
  match k with
  | query => "query"
  | mutation => "mutation"
  | subscription => "subscription"
  end.

Definition print (n : OperationDefinitionNode) : string :=
  keyword (operation n)
    ++ match name n with Some nm => " " ++ value nm | None => "" end
    ++ " " ++ selectionSet n.

Definition collaborators : Collaborators :=
  Build_Collaborators print indentMultiline.

Definition super : Base.t :=
  {| Base.documentMode := DocumentMode.graphQLTag;
     Base.useTypeImports := false;
     Base.importOperationTypesFrom := None;
     Base._additionalImports := [] |}.

Definition rawConfig : Raw.t :=
  {| Raw.usingObservableFrom := None; Raw.rawRequest := None |}.

Definition operationNode (k : OperationTypeNode) (nm : option string)
    (vs : option (list VariableDefinitionNode)) (ds : option (list DirectiveNode))
  : OperationDefinitionNode :=
  {| operation := k;
     name := option_map (fun s => {| value := s |}) nm;
     variableDefinitions := vs;
     directives := ds;
     selectionSet := "{ id }" |}.

Definition arguments (n : OperationDefinitionNode) (nm : string) : Visit :=
  {| visit_node := n;
     visit_documentVariableName := nm ++ "Document";
     visit_operationType := "Operation";
     visit_operationResultType := nm ++ "Result";
     visit_operationVariablesTypes := nm ++ "Variables" |}.

Definition idVariable (t : TypeNode) (d : option ValueNode) : VariableDefinitionNode :=
  {| variable := {| value := "id" |}; type := t; defaultValue := d |}.

Definition ID : TypeNode := NamedType {| value := "ID" |}.

(** [query GetUser($id: ID!)], [mutation Touch] and [subscription OnMessage]. *)
Definition getUser : OperationDefinitionNode :=
  operationNode query (Some "GetUser") (Some [idVariable (NonNullType ID) None]) (Some []).

Definition touch : OperationDefinitionNode :=
  operationNode mutation (Some "Touch") None None.

Definition onMessage : OperationDefinitionNode :=
  operationNode subscription (Some "OnMessage") (Some []) None.

(** A visitor after three visits. *)
Definition visited : GenericSdkVisitor :=
  snd (@visitAll collaborators
         [arguments getUser "GetUser"; arguments touch "Touch";
          arguments onMessage "OnMessage"]
         (constructor super rawConfig)).

(** The same query visited twice. *)
Definition twice : GenericSdkVisitor :=
  snd (@visitAll collaborators
         [arguments getUser "GetUser"; arguments getUser "GetUser"]
         (constructor super rawConfig)).

(** An operation without name, and one whose name node has an empty text. *)
Definition unnamed : OperationDefinitionNode := operationNode query None None None.

Definition emptyName : OperationDefinitionNode := operationNode query (Some "") None None.

(** A configuration with an observable module, the raw envelope, external
    documents and types imported under a prefix. *)
Definition observableSuper : Base.t :=
  {| Base.documentMode := DocumentMode.external;
     Base.useTypeImports := true;
     Base.importOperationTypesFrom := Some "Types";
     Base._additionalImports := [] |}.

Definition observableConfig : Raw.t :=
  {| Raw.usingObservableFrom := Some "import Observable from 'zen-observable';";
     Raw.rawRequest := Some true |}.

Definition observed : GenericSdkVisitor :=
  snd (@visit collaborators (arguments onMessage "OnMessage")
         (constructor observableSuper observableConfig)).

(** An object that no run of the class produces: a record without name
    put in the list by hand. *)
Definition forged : GenericSdkVisitor :=
  push {| node := unnamed;
          documentVariableName := "Document";
          operationType := "Query";
          operationResultType := "Result";
          operationVariablesTypes := "Variables" |}
    (constructor super rawConfig).

(** The text [sdkContent] returns, or the empty text when it throws. *)
Definition rendered (this : GenericSdkVisitor) : string :=
  match fst (@sdkContent collaborators this) with
  | inr out => out
  | inl _ => ""
  end.

End Sample.

(** ** Further notions about runs and rendering *)

(** The record a call of [buildOperation] pushes, lines 90-96, with the
    type names qualified as lines 82-83 do. *)
Definition recordOf (this : GenericSdkVisitor) (a : Visit) : IncludedOperation :=
  {| node := visit_node a;
     documentVariableName := visit_documentVariableName a;
     operationType := visit_operationType a;
     operationResultType := _externalImportPrefix this ++ visit_operationResultType a;
     operationVariablesTypes := _externalImportPrefix this ++ visit_operationVariablesTypes a |}.

(** The visitor with further records at the end of its list. *)
Definition pushAll (os : list IncludedOperation) (this : GenericSdkVisitor)
  : GenericSdkVisitor :=
  {| config := config this;
     _additionalImports := _additionalImports this;
     _externalImportPrefix := _externalImportPrefix this;
     _operationsToInclude := (_operationsToInclude this ++ os)%list |}.

(** A visit whose operation has a name. *)
Definition namedVisit (a : Visit) : bool := present (name (visit_node a)).

(** A text occurs in another one. *)
Definition mentions (needle haystack : string) : bool :=
  present (String.index 0 needle haystack).

(** What [sdkContent] reads of an accumulated record: the text of the name
    if any, the flag of the variables, the stream classification, and the
    three names given at the visit. *)
Definition sameRendering (o o' : IncludedOperation) : Prop :=
  option_map value (name (node o)) = option_map value (name (node o'))
  /\ optionalVariables (node o) = optionalVariables (node o')
  /\ isStreamOperation (node o) = isStreamOperation (node o')
  /\ documentVariableName o = documentVariableName o'
  /\ operationResultType o = operationResultType o'
  /\ operationVariablesTypes o = operationVariablesTypes o'.

(** The visitors a given one can become: by calls of [buildOperation] and
    reads of [sdkContent], whether they return or throw. *)
Inductive evolves `{Collaborators} (start : GenericSdkVisitor) : GenericSdkVisitor -> Prop :=
| evolves_start : evolves start start
| evolves_visit (this : GenericSdkVisitor) (a : Visit) :
    evolves start this -> evolves start (snd (visit a this))
| evolves_render (this : GenericSdkVisitor) :
    evolves start this -> evolves start (snd (sdkContent this)).

(** Further concrete inputs. *)
Module Runs.

(** [query GetUser] again, with another selection set, another variable
    name and another label at the visit. *)
Definition getUserVariant : OperationDefinitionNode :=
  {| operation := query;
     name := Some {| value := "GetUser" |};
     variableDefinitions :=
       Some [{| variable := {| value := "key" |};
                type := NonNullType (NamedType {| value := "String" |});
                defaultValue := None |}];
     directives := None;
     selectionSet := "{ id name }" |}.

Definition variantArguments : Visit :=
  {| visit_node := getUserVariant;
     visit_documentVariableName := "GetUserDocument";
     visit_operationType := "Query";
     visit_operationResultType := "GetUserResult";
     visit_operationVariablesTypes := "GetUserVariables" |}.

Definition variant : GenericSdkVisitor :=
  snd (@visit Sample.collaborators variantArguments
         (constructor Sample.super Sample.rawConfig)).

Definition original : GenericSdkVisitor :=
  snd (@visit Sample.collaborators (Sample.arguments Sample.getUser "GetUser")
         (constructor Sample.super Sample.rawConfig)).

(** Collaborators that differ from the sample ones. *)
Definition otherCollaborators : Collaborators :=
  Build_Collaborators (fun _ => "") (fun s _ => s).

End Runs.

(** * Properties *)

(** ** Methods that only read [this] *)

Create HintDb visitor.

Section ReadOnly.

Lemma readOnly_ret {A : Type} (a : A) : readOnly (ret a).
Proof. intros this. reflexivity. Qed.

Lemma readOnly_throw {A : Type} (e : exn) : readOnly (@throw A e).
Proof. intros this. reflexivity. Qed.

Lemma readOnly_get : readOnly get.
Proof. intros this. reflexivity. Qed.

Lemma readOnly_bind {A B : Type} (m : M A) (k : A -> M B) :
  readOnly m -> (forall a, readOnly (k a)) -> readOnly (bind m k).
Proof.
  intros Hm Hk this. unfold bind.
  specialize (Hm this). destruct (m this) as [[e | a] this']; simpl in Hm; subst this'.
  - reflexivity.
  - apply Hk.
Qed.

Lemma readOnly_mapM {A B : Type} (f : A -> M B) (l : list A) :
  (forall x, readOnly (f x)) -> readOnly (mapM f l).
Proof.
  intros Hf. induction l as [| x xs IH]; simpl.
  - apply readOnly_ret.
  - apply readOnly_bind; [apply Hf |].
    intros y. apply readOnly_bind; [exact IH |].
    intros ys. apply readOnly_ret.
Qed.

#[local] Hint Resolve readOnly_ret readOnly_throw readOnly_get readOnly_bind readOnly_mapM
  : visitor.

Lemma readOnly_actionConfig (this : GenericSdkVisitor) (u : bool) (o : IncludedOperation) :
  readOnly (actionConfig this u o).
Proof. unfold actionConfig. destruct (name (node o)); auto with visitor. Qed.

#[local] Hint Resolve readOnly_actionConfig : visitor.

Lemma readOnly_sdkContent `{Collaborators} : readOnly sdkContent.
Proof. unfold sdkContent. auto 6 with visitor. Qed.

End ReadOnly.

(** ** What the callbacks of [sdkContent] compute *)

Section Rendering.

Context `{Collaborators}.

(** The action of an accumulated operation, where its name is present. *)
Lemma actionConfig_named this u o nm s :
  name (node o) = Some nm ->
  actionConfig this u o s =
    (inr {| Action.operationName := value nm;
            Action.optionalVariables := optionalVariables (node o);
            Action.operationVariablesTypes := operationVariablesTypes o;
            Action.operationResultType := operationResultType o;
            Action.docVarName := getDocumentNodeVariable this (documentVariableName o);
            Action.returnType := returnType u (node o);
            Action.resultData := resultData this o |}, s).
Proof. intros Hn. unfold actionConfig, bind, ret. rewrite Hn. reflexivity. Qed.

Lemma actionConfig_unnamed this u o s :
  name (node o) = None ->
  actionConfig this u o s = (inl (TypeError "value"), s).
Proof. intros Hn. unfold actionConfig, bind, throw. rewrite Hn. reflexivity. Qed.

Lemma actionOf_fields this u o ac :
  actionOf this u o ac ->
  exists nm,
    name (node o) = Some nm /\
    ac = {| Action.operationName := value nm;
            Action.optionalVariables := optionalVariables (node o);
            Action.operationVariablesTypes := operationVariablesTypes o;
            Action.operationResultType := operationResultType o;
            Action.docVarName := getDocumentNodeVariable this (documentVariableName o);
            Action.returnType := returnType u (node o);
            Action.resultData := resultData this o |}.
Proof.
  intros Hac. specialize (Hac this).
  destruct (name (node o)) as [nm |] eqn:Hn.
  - exists nm. split; [reflexivity |].
    rewrite (actionConfig_named this u o this Hn) in Hac. congruence.
  - rewrite (actionConfig_unnamed this u o this Hn) in Hac. discriminate.
Qed.

(** The first [map] returns exactly when every accumulated operation is
    named, and then gives one action per operation, in order. *)
Lemma mapM_actionConfig_named this u l s :
  forallb named l = true ->
  exists acs, mapM (actionConfig this u) l s = (inr acs, s)
              /\ Forall2 (actionOf this u) l acs.
Proof.
  induction l as [| o l IH]; simpl; intros Hl.
  - exists []. split; [reflexivity | constructor].
  - apply andb_true_iff in Hl. destruct Hl as [Ho Hl].
    destruct (IH Hl) as [acs [Hrun Hall]].
    unfold named in Ho. destruct (name (node o)) as [nm |] eqn:Hn; [| discriminate].
    eexists (_ :: acs). split.
    + unfold bind at 1. rewrite (actionConfig_named this u o s Hn).
      unfold bind at 1. rewrite Hrun. reflexivity.
    + constructor; [| exact Hall].
      intros s'. apply actionConfig_named. exact Hn.
Qed.

Lemma mapM_actionConfig_inr this u l s acs s' :
  mapM (actionConfig this u) l s = (inr acs, s') ->
  forallb named l = true /\ Forall2 (actionOf this u) l acs.
Proof.
  revert acs. induction l as [| o l IH]; simpl; intros acs Hrun.
  - unfold ret in Hrun. inversion Hrun; subst. split; [reflexivity | constructor].
  - unfold bind at 1 in Hrun.
    destruct (name (node o)) as [nm |] eqn:Hn.
    + rewrite (actionConfig_named this u o s Hn) in Hrun.
      unfold bind at 1 in Hrun.
      destruct (mapM (actionConfig this u) l s) as [[e | ys] s1] eqn:Hl; [discriminate |].
      unfold ret in Hrun. inversion Hrun; subst.
      destruct (IH ys eq_refl) as [Hnamed Hall].
      split.
      * unfold named at 1. rewrite Hn. simpl. exact Hnamed.
      * constructor; [| exact Hall]. intros s0. apply actionConfig_named. exact Hn.
    + rewrite (actionConfig_unnamed this u o s Hn) in Hrun. discriminate.
Qed.

Lemma mapM_actionConfig_inl this u l s e s' :
  mapM (actionConfig this u) l s = (inl e, s') ->
  forallb named l = false.
Proof.
  intros Hrun. destruct (forallb named l) eqn:Hl; [| reflexivity].
  destruct (mapM_actionConfig_named this u l s Hl) as [acs [Hok _]].
  rewrite Hok in Hrun. discriminate.
Qed.

Lemma sdkContent_named this :
  forallb named (_operationsToInclude this) = true ->
  exists acs,
    sdkContent this = (inr (sdkOf this acs), this)
    /\ Forall2 (actionOf this (truthy (usingObservableFrom (config this))))
         (_operationsToInclude this) acs.
Proof.
  intros Hl.
  destruct (mapM_actionConfig_named this (truthy (usingObservableFrom (config this)))
              (_operationsToInclude this) this Hl) as [acs [Hrun Hall]].
  exists acs. split; [| exact Hall].
  unfold sdkContent, bind, get. rewrite Hrun. reflexivity.
Qed.

Lemma sdkContent_inr this out :
  fst (sdkContent this) = inr out ->
  exists acs,
    out = sdkOf this acs
    /\ Forall2 (actionOf this (truthy (usingObservableFrom (config this))))
         (_operationsToInclude this) acs.
Proof.
  unfold sdkContent, bind, get. intros Hrun.
  destruct (mapM (actionConfig this (truthy (usingObservableFrom (config this))))
              (_operationsToInclude this) this) as [[e | acs] s'] eqn:Hm.
  - discriminate.
  - apply mapM_actionConfig_inr in Hm. destruct Hm as [_ Hall].
    exists acs. split; [| exact Hall].
    simpl in Hrun. inversion Hrun. reflexivity.
Qed.

Lemma mapM_actionConfig_exn this u l s e s' :
  mapM (actionConfig this u) l s = (inl e, s') -> e = TypeError "value".
Proof.
  induction l as [| o l IH]; simpl; [discriminate |].
  unfold bind at 1. destruct (name (node o)) as [nm |] eqn:Hn.
  - rewrite (actionConfig_named this u o s Hn). unfold bind at 1.
    destruct (mapM (actionConfig this u) l s) as [[e' | ys] s1].
    + intros Hrun. inversion Hrun; subst. apply IH. reflexivity.
    + discriminate.
  - rewrite (actionConfig_unnamed this u o s Hn). congruence.
Qed.

Lemma sdkContent_inl this e :
  fst (sdkContent this) = inl e ->
  e = TypeError "value" /\ forallb named (_operationsToInclude this) = false.
Proof.
  unfold sdkContent, bind, get. intros Hrun.
  destruct (mapM (actionConfig this (truthy (usingObservableFrom (config this))))
              (_operationsToInclude this) this) as [[e' | acs] s'] eqn:Hm.
  - simpl in Hrun. inversion Hrun; subst. split.
    + eapply mapM_actionConfig_exn. exact Hm.
    + eapply mapM_actionConfig_inl. exact Hm.
  - discriminate.
Qed.

End Rendering.

(** ** Visits *)

Section Visiting.

Context `{Collaborators}.

(** The record a visit appends. *)
Lemma buildOperation_named node dv ot rt vt this nm :
  name node = Some nm ->
  buildOperation node dv ot rt vt this =
    (inr None,
     push {| node := node;
             documentVariableName := dv;
             operationType := ot;
             operationResultType := _externalImportPrefix this ++ rt;
             operationVariablesTypes := _externalImportPrefix this ++ vt |} this).
Proof. intros Hn. unfold buildOperation, bind, get. rewrite Hn. reflexivity. Qed.

Lemma buildOperation_unnamed node dv ot rt vt this :
  name node = None ->
  buildOperation node dv ot rt vt this = (inl (Error (unnamedOperationMessage node)), this).
Proof. intros Hn. unfold buildOperation, bind, get. rewrite Hn. reflexivity. Qed.

Lemma forallb_named_push this o :
  forallb named (_operationsToInclude this) = true ->
  named o = true ->
  forallb named (_operationsToInclude (push o this)) = true.
Proof.
  intros Hl Ho. unfold push. simpl. rewrite forallb_app, Hl. simpl. rewrite Ho. reflexivity.
Qed.

(** A visit keeps every accumulated operation named. *)
Lemma visit_named_preserved a this :
  forallb named (_operationsToInclude this) = true ->
  forallb named (_operationsToInclude (snd (visit a this))) = true.
Proof.
  intros Hl. unfold visit.
  destruct (name (visit_node a)) as [nm |] eqn:Hn.
  - rewrite (buildOperation_named _ _ _ _ _ this Hn). simpl snd.
    apply forallb_named_push; [exact Hl |].
    unfold named. simpl. rewrite Hn. reflexivity.
  - rewrite (buildOperation_unnamed _ _ _ _ _ this Hn). exact Hl.
Qed.

(** The invariant of the accumulated list. *)
Lemma reachable_named this :
  reachable this -> forallb named (_operationsToInclude this) = true.
Proof.
  induction 1 as [super rawConfig | this a _ IH | this _ IH].
  - reflexivity.
  - apply visit_named_preserved. exact IH.
  - rewrite readOnly_sdkContent. exact IH.
Qed.

Lemma visitAll_reachable l this :
  reachable this -> reachable (snd (visitAll l this)).
Proof.
  revert this. induction l as [| a l IH]; intros this Hr; simpl.
  - exact Hr.
  - unfold bind. pose proof (reachable_visit a Hr) as Hv.
    destruct (visit a this) as [[e | r] this']; simpl in *.
    + exact Hv.
    + apply IH. exact Hv.
Qed.

End Visiting.

(** ** The claims *)

Section Claims.

Context `{Collaborators}.

Lemma existsb_live ds :
  existsb (fun d => String.eqb (value (directive_name d)) "live") ds = true
  <-> exists d, In d ds /\ value (directive_name d) = "live".
Proof.
  rewrite existsb_exists. split; intros [d [Hin Hd]]; exists d; split; try exact Hin.
  - apply String.eqb_eq. exact Hd.
  - apply String.eqb_eq. exact Hd.
Qed.

Lemma isStreamOperation_true_iff n :
  isStreamOperation n = true
  <-> operation n = subscription \/ (operation n = query /\ hasLiveDirective n).
Proof.
  unfold isStreamOperation, hasLiveDirective.
  destruct (operation n) eqn:Hop; simpl.
  - destruct (directives n) as [ds |] eqn:Hds.
    + destruct (existsb _ ds) eqn:Hex.
      * split; [| reflexivity]. intros _. right. split; [reflexivity |].
        apply existsb_live in Hex. destruct Hex as [d [Hin Hd]].
        exists ds, d. repeat split; assumption.
      * split; [discriminate |].
        intros [Hsub | [_ [ds' [d [Heq [Hin Hd]]]]]]; [discriminate |].
        inversion Heq; subst ds'.
        assert (Ht : existsb (fun d => String.eqb (value (directive_name d)) "live") ds = true)
          by (apply existsb_live; exists d; split; assumption).
        rewrite Ht in Hex. discriminate.
    + split; [discriminate |].
      intros [Hsub | [_ [ds' [d [Heq _]]]]]; discriminate.
  - split; [discriminate |]. intros [Hsub | [Hq _]]; discriminate.
  - split; [| reflexivity]. intros _. left. reflexivity.
Qed.

(** C1.  [isStreamOperation] returns [true] exactly for a subscription and
    for a query that carries a directive named [live]; it returns [false]
    in every other case: for every mutation, whatever its directives, and
    for every query without a [live] directive. *)
Theorem isStreamOperation_classification :
  forall n : OperationDefinitionNode,
    (isStreamOperation n = true
     <-> operation n = subscription \/ (operation n = query /\ hasLiveDirective n))
    /\ (operation n = subscription -> isStreamOperation n = true)
    /\ (operation n = query -> hasLiveDirective n -> isStreamOperation n = true)
    /\ (operation n = mutation -> isStreamOperation n = false)
    /\ (operation n = query -> ~ hasLiveDirective n -> isStreamOperation n = false).
Proof.
  intros n. pose proof (isStreamOperation_true_iff n) as Hiff.
  split; [exact Hiff |]. repeat split.
  - intros Hs. apply Hiff. left. exact Hs.
  - intros Hq Hl. apply Hiff. right. split; assumption.
  - intros Hm. destruct (isStreamOperation n); [| reflexivity].
    destruct (proj1 Hiff eq_refl) as [Hs | [Hs _]]; congruence.
  - intros Hq Hl. destruct (isStreamOperation n); [| reflexivity].
    destruct (proj1 Hiff eq_refl) as [Hs | [_ Hs]]; [congruence | contradiction].
Qed.

Lemma append_assoc (a b c : string) : (a ++ b) ++ c = a ++ (b ++ c).
Proof. induction a as [| ch a IH]; simpl; [reflexivity | rewrite IH; reflexivity]. Qed.

(** The actions [sdkContent] renders satisfy what every action of an
    accumulated operation satisfies. *)
Lemma sdkContent_actions (P : IncludedOperation -> Action.t -> Prop) this out :
  (forall o ac,
      actionOf this (truthy (usingObservableFrom (config this))) o ac -> P o ac) ->
  fst (sdkContent this) = inr out ->
  exists acs, out = sdkOf this acs /\ Forall2 P (_operationsToInclude this) acs.
Proof.
  intros HP Hrun. destruct (sdkContent_inr this Hrun) as [acs [Hout Hall]].
  exists acs. split; [exact Hout |].
  eapply Forall2_impl; [| exact Hall]. exact HP.
Qed.

Lemma optionalVariables_true_iff n :
  optionalVariables n = true
  <-> declaredVariables n = []
      \/ (forall v, In v (declaredVariables n) -> nullable v \/ hasDefault v).
Proof.
  unfold optionalVariables, declaredVariables, nullable, hasDefault.
  destruct (variableDefinitions n) as [vs |].
  - rewrite orb_true_iff, forallb_forall. split.
    + intros [Hlen | Hall].
      * left. destruct vs; [reflexivity | discriminate].
      * right. intros v Hin. specialize (Hall v Hin).
        apply orb_true_iff in Hall. destruct Hall as [Hk | Hd].
        -- left. intros Heq. rewrite Heq in Hk. discriminate.
        -- right. destruct (defaultValue v); [discriminate | discriminate].
    + intros [Hnil | Hall].
      * left. subst vs. reflexivity.
      * right. intros v Hin. apply orb_true_iff.
        destruct (Hall v Hin) as [Hk | Hd].
        -- left. destruct (kind (type v)); try reflexivity. contradiction.
        -- right. destruct (defaultValue v); [reflexivity | contradiction].
  - split; [| reflexivity]. intros _. left. reflexivity.
Qed.

(** C2.  The flag [optionalVariables] of an accumulated operation is
    [true] if and only if the operation declares no variables (the list is
    missing or empty) or every declared variable is nullable or has a
    default value; the exported function and the method that [sdkContent]
    emits for the operation write [variables?] exactly when the flag is
    [true], and [variables] otherwise. *)
Theorem optionalVariables_flag :
  forall this : GenericSdkVisitor,
    (forall n : OperationDefinitionNode,
        optionalVariables n = true
        <-> declaredVariables n = []
            \/ (forall v, In v (declaredVariables n) -> nullable v \/ hasDefault v))
    /\ (forall out,
           fst (sdkContent this) = inr out ->
           exists acs,
             out = sdkOf this acs
             /\ Forall2
                  (fun o ac =>
                     Action.optionalVariables ac = optionalVariables (node o)
                     /\ (exists mark,
                            (mark = "?" <-> optionalVariables (node o) = true)
                            /\ (mark = "" <-> optionalVariables (node o) = false)
                            /\ (exists rest,
                                   actionText ac =
                                     "export function " ++ Action.operationName ac
                                       ++ "<C, E>(requester: Requester<C, E>, variables"
                                       ++ mark ++ ": " ++ Action.operationVariablesTypes ac
                                       ++ rest)
                            /\ (exists rest,
                                   actionImplText ac =
                                     Action.operationName ac ++ "(variables"
                                       ++ mark ++ ": " ++ Action.operationVariablesTypes ac
                                       ++ rest)))
                  (_operationsToInclude this) acs).
Proof.
  intros this. split; [exact optionalVariables_true_iff |].
  intros out. apply sdkContent_actions.
  intros o ac Hac. destruct (actionOf_fields Hac) as [nm [_ Heq]]. subst ac.
  split; [reflexivity |].
  exists (if optionalVariables (node o) then "?" else "").
  unfold actionText, actionImplText. simpl.
  destruct (optionalVariables (node o)); (split; [| split; [| split]]).
  - split; reflexivity.
  - split; discriminate.
  - eexists. reflexivity.
  - eexists. reflexivity.
  - split; discriminate.
  - split; reflexivity.
  - eexists. reflexivity.
  - eexists. reflexivity.
Qed.

(** A reachable visitor renders without exception. *)
Lemma reachable_sdkContent this :
  reachable this -> exists acs, sdkContent this = (inr (sdkOf this acs), this).
Proof.
  intros Hr. destruct (sdkContent_named this (reachable_named Hr)) as [acs [Hrun _]].
  exists acs. exact Hrun.
Qed.

(** C3.  For an operation node without name, [buildOperation] throws an
    [Error] whose message ends with the printed node, and leaves the
    visitor as it was: no record is appended.  It throws in no other case,
    and reading [sdkContent] of a visitor that was constructed and then
    only visited and rendered never throws: the unnamed operation is the
    only failure of the component. *)
Theorem unnamed_operation_error :
  forall (node : OperationDefinitionNode) (dv ot rt vt : string) (this : GenericSdkVisitor),
    (name node = None ->
     buildOperation node dv ot rt vt this =
       (inl (Error ("Plugin 'generic-sdk' cannot generate SDK for unnamed operation."
                      ++ NL ++ NL ++ print node)), this))
    /\ (forall e, fst (buildOperation node dv ot rt vt this) = inl e -> name node = None)
    /\ (reachable this -> forall e, fst (sdkContent this) <> inl e).
Proof.
  intros node dv ot rt vt this. repeat split.
  - intros Hn. apply buildOperation_unnamed. exact Hn.
  - intros e Hrun. destruct (name node) as [nm |] eqn:Hn; [| reflexivity].
    rewrite (buildOperation_named _ dv ot rt vt this Hn) in Hrun. discriminate.
  - intros Hr e Hrun. destruct (reachable_sdkContent Hr) as [acs Hok].
    rewrite Hok in Hrun. discriminate.
Qed.

(** C4, as amended.  Every record of the accumulated list of a reachable
    visitor has a name node, and [buildOperation] enforces it: it throws
    exactly when the name of the operation is absent, and otherwise appends
    the record, whatever the text of the name. *)
Theorem named_records :
  forall this : GenericSdkVisitor,
    reachable this ->
    (forall o, In o (_operationsToInclude this) -> exists nm, name (node o) = Some nm)
    /\ (forall n dv ot rt vt,
           (name n = None <-> exists e, fst (buildOperation n dv ot rt vt this) = inl e)
           /\ (forall nm, name n = Some nm ->
               exists o, buildOperation n dv ot rt vt this = (inr None, push o this)
                         /\ node o = n)).
Proof.
  intros this Hr. split.
  - intros o Hin. pose proof (reachable_named Hr) as Hall.
    rewrite forallb_forall in Hall. specialize (Hall o Hin).
    unfold named in Hall. destruct (name (node o)) as [nm |]; [| discriminate].
    exists nm. reflexivity.
  - intros n dv ot rt vt. split; [split |].
    + intros Hn. eexists. rewrite (buildOperation_unnamed n dv ot rt vt this Hn).
      reflexivity.
    + intros [e Hrun]. destruct (name n) as [nm |] eqn:Hn; [| reflexivity].
      rewrite (buildOperation_named n dv ot rt vt this Hn) in Hrun. discriminate.
    + intros nm Hn. eexists. split.
      * apply (buildOperation_named n dv ot rt vt this Hn).
      * reflexivity.
Qed.

Lemma getDocumentNodeVariable_config this other dv :
  config other = config this ->
  getDocumentNodeVariable other dv = getDocumentNodeVariable this dv.
Proof. intros Hc. unfold getDocumentNodeVariable. rewrite Hc. reflexivity. Qed.

Lemma resultData_config this other o :
  config other = config this -> resultData other o = resultData this o.
Proof. intros Hc. unfold resultData. rewrite Hc. reflexivity. Qed.

(** The first [map] reads of [this] only the configuration, and its result
    does not depend on the state it runs in. *)
Lemma mapM_actionConfig_config this other u l s s' :
  config other = config this ->
  fst (mapM (actionConfig other u) l s') = fst (mapM (actionConfig this u) l s).
Proof.
  intros Hc. induction l as [| o l IH]; simpl; [reflexivity |].
  unfold bind at 1 3. destruct (name (node o)) as [nm |] eqn:Hn.
  - rewrite (actionConfig_named other u o s' Hn), (actionConfig_named this u o s Hn).
    rewrite (getDocumentNodeVariable_config this other _ Hc), (resultData_config this other o Hc).
    unfold bind at 1 2.
    destruct (mapM (actionConfig other u) l s') as [[e1 | ys1] s1];
      destruct (mapM (actionConfig this u) l s) as [[e2 | ys2] s2];
      simpl in IH; try discriminate; inversion IH; reflexivity.
  - rewrite (actionConfig_unnamed other u o s' Hn), (actionConfig_unnamed this u o s Hn).
    reflexivity.
Qed.

(** C5.  Reading [sdkContent] leaves the visitor, hence its accumulated
    list, as it was; a second read with no visit in between gives the
    same outcome as the first; and the outcome is determined by the
    accumulated list and the configuration alone. *)
Theorem sdkContent_pure :
  forall this : GenericSdkVisitor,
    snd (sdkContent this) = this
    /\ _operationsToInclude (snd (sdkContent this)) = _operationsToInclude this
    /\ sdkContent (snd (sdkContent this)) = sdkContent this
    /\ (forall other,
           config other = config this ->
           _operationsToInclude other = _operationsToInclude this ->
           fst (sdkContent other) = fst (sdkContent this)).
Proof.
  intros this. pose proof (readOnly_sdkContent this) as Hro.
  split; [exact Hro |]. split; [rewrite Hro; reflexivity |].
  split; [rewrite Hro; reflexivity |].
  intros other Hc Hops. unfold sdkContent, bind, get. rewrite Hops, Hc.
  pose proof (mapM_actionConfig_config this other
                (truthy (usingObservableFrom (config this)))
                (_operationsToInclude this) this other Hc) as Hm.
  destruct (mapM (actionConfig other _) _ other) as [[e1 | ys1] s1];
    destruct (mapM (actionConfig this _) _ this) as [[e2 | ys2] s2];
    simpl in Hm; try discriminate; inversion Hm; subst.
  - reflexivity.
  - unfold ret, sdkText, requesterText, requesterReturnType, requesterResultData,
      documentNodeType. simpl. rewrite Hc. reflexivity.
Qed.

(** C6, as amended.  The [Requester] type that [sdkContent] emits always
    returns the union of
    a promise of the payload and a stream of the same payload: the payload
    is [R], or [ExecutionResult<R, E>] when [rawRequest] is true, and the
    stream is [Observable] when [usingObservableFrom] is set and
    [AsyncIterable] otherwise, whichever operations are accumulated. *)
Theorem requester_return_type :
  forall (this : GenericSdkVisitor) (out : string),
    fst (sdkContent this) = inr out ->
    exists actions methods : list string,
      List.length actions = List.length (_operationsToInclude this)
      /\ List.length methods = List.length (_operationsToInclude this)
      /\ out =
           NL ++ join NL actions ++ NL
             ++ "export type Requester<C = {}, E = unknown> = <R, V>(doc: "
             ++ (if DocumentMode.eqb (documentMode (config this)) DocumentMode.string
                 then "string" else "DocumentNode")
             ++ ", vars?: V, options?: C) => "
             ++ "Promise<"
             ++ (if rawRequest (config this) then "ExecutionResult<R, E>" else "R")
             ++ "> | "
             ++ (if truthy (usingObservableFrom (config this))
                 then "Observable" else "AsyncIterable")
             ++ "<"
             ++ (if rawRequest (config this) then "ExecutionResult<R, E>" else "R")
             ++ ">" ++ NL
             ++ "export function getSdk<C, E>(requester: Requester<C, E>) {" ++ NL
             ++ "  return {" ++ NL
             ++ join ("," ++ NL) methods ++ NL
             ++ "  };" ++ NL
             ++ "}" ++ NL
             ++ "export type Sdk = ReturnType<typeof getSdk>;".
Proof.
  intros this out Hrun. destruct (sdkContent_inr this Hrun) as [acs [Hout Hall]].
  apply Forall2_length in Hall.
  exists (map (fun s => indentMultiline s 2) (map actionText acs)), (map actionImplText acs).
  rewrite !length_map. repeat split; try (symmetry; exact Hall).
  subst out.
  unfold sdkOf, sdkText, requesterText, requesterReturnType, requesterResultData,
    documentNodeType.
  rewrite !append_assoc. reflexivity.
Qed.

(** C7.  For every accumulated operation, the return type of the exported
    function and of the method that [sdkContent] emits is [Observable] when
    the operation is stream-like and [usingObservableFrom] is set,
    [AsyncIterable] when it is stream-like and [usingObservableFrom] is not
    set, and [Promise] in every other case. *)
Theorem returnType_shape :
  forall (this : GenericSdkVisitor) (out : string),
    fst (sdkContent this) = inr out ->
    exists acs,
      out = sdkOf this acs
      /\ Forall2
           (fun o ac =>
              let shape :=
                if isStreamOperation (node o)
                then if truthy (usingObservableFrom (config this))
                     then "Observable" else "AsyncIterable"
                else "Promise" in
              Action.returnType ac = shape
              /\ actionText ac =
                   "export function " ++ Action.operationName ac
                     ++ "<C, E>(requester: Requester<C, E>, variables"
                     ++ (if Action.optionalVariables ac then "?" else "")
                     ++ ": " ++ Action.operationVariablesTypes ac ++ ", options?: C): "
                     ++ shape ++ "<" ++ Action.resultData ac ++ "> {" ++ NL
                     ++ "  return requester<" ++ Action.operationResultType ac ++ ", "
                     ++ Action.operationVariablesTypes ac ++ ">("
                     ++ Action.docVarName ac
                     ++ ", variables, options) as " ++ shape ++ "<"
                     ++ Action.resultData ac ++ ">;" ++ NL
                     ++ "}"
              /\ actionImplText ac =
                   Action.operationName ac ++ "(variables"
                     ++ (if Action.optionalVariables ac then "?" else "") ++ ": "
                     ++ Action.operationVariablesTypes ac
                     ++ ", options?: C): " ++ shape ++ "<" ++ Action.resultData ac
                     ++ "> {" ++ NL
                     ++ "  return " ++ Action.operationName ac
                     ++ "(requester, variables, options) as "
                     ++ shape ++ "<" ++ Action.resultData ac ++ ">;" ++ NL
                     ++ "}")
           (_operationsToInclude this) acs.
Proof.
  intros this out. apply sdkContent_actions.
  intros o ac Hac. destruct (actionOf_fields Hac) as [nm [_ Heq]]. subst ac.
  unfold actionText, actionImplText, returnType. simpl.
  repeat split; reflexivity.
Qed.

Lemma Forall2_map_eq {A B C : Type} (R : A -> B -> Prop) (f : B -> C) (g : A -> C) l l' :
  (forall a b, R a b -> f b = g a) -> Forall2 R l l' -> map f l' = map g l.
Proof.
  intros Hfg. induction 1 as [| a b l l' Hab _ IH]; simpl; [reflexivity |].
  rewrite (Hfg a b Hab), IH. reflexivity.
Qed.

Lemma actionOf_all_named this u l acs :
  Forall2 (actionOf this u) l acs -> forallb named l = true.
Proof.
  induction 1 as [| o ac l acs Hac _ IH]; simpl; [reflexivity |].
  destruct (actionOf_fields Hac) as [nm [Hn _]].
  unfold named at 1. rewrite Hn, IH. reflexivity.
Qed.

(** Proves that the texts mapped over the actions are those mapped over
    the records, the actions being those of the records. *)
Ltac emitted_by Hall :=
  eapply Forall2_map_eq; [| exact Hall];
  let o := fresh "o" in
  let ac := fresh "ac" in
  let Hac := fresh "Hac" in
  let nm := fresh "nm" in
  let Hn := fresh "Hn" in
  let Heq := fresh "Heq" in
  intros o ac Hac; destruct (actionOf_fields Hac) as [nm [Hn Heq]]; subst ac;
  unfold actionText, actionImplText, resultData, requesterResultData; simpl;
  rewrite Hn; reflexivity.

(** The text [sdkContent] returns, written out from the accumulated
    records. *)
Lemma sdkContent_text this out :
  fst (sdkContent this) = inr out ->
  let u := truthy (usingObservableFrom (config this)) in
    let nameOf := fun o : IncludedOperation =>
      match name (node o) with Some n => value n | None => "" end in
    let function := fun o : IncludedOperation =>
      "export function " ++ nameOf o
        ++ "<C, E>(requester: Requester<C, E>, variables"
        ++ (if optionalVariables (node o) then "?" else "")
        ++ ": " ++ operationVariablesTypes o ++ ", options?: C): "
        ++ returnType u (node o) ++ "<" ++ resultData this o ++ "> {" ++ NL
        ++ "  return requester<" ++ operationResultType o ++ ", "
        ++ operationVariablesTypes o ++ ">("
        ++ getDocumentNodeVariable this (documentVariableName o)
        ++ ", variables, options) as " ++ returnType u (node o) ++ "<"
        ++ resultData this o ++ ">;" ++ NL
        ++ "}" in
    let method := fun o : IncludedOperation =>
      nameOf o ++ "(variables"
        ++ (if optionalVariables (node o) then "?" else "") ++ ": "
        ++ operationVariablesTypes o
        ++ ", options?: C): " ++ returnType u (node o) ++ "<" ++ resultData this o
        ++ "> {" ++ NL
        ++ "  return " ++ nameOf o ++ "(requester, variables, options) as "
        ++ returnType u (node o) ++ "<" ++ resultData this o ++ ">;" ++ NL
        ++ "}" in
  forallb named (_operationsToInclude this) = true
  /\ out =
      NL ++ join NL (map (fun o => indentMultiline (function o) 2) (_operationsToInclude this)) ++ NL
        ++ ("export type Requester<C = {}, E = unknown> = <R, V>(doc: "
        ++ documentNodeType this ++ ", vars?: V, options?: C) => "
        ++ requesterReturnType this u) ++ NL
        ++ "export function getSdk<C, E>(requester: Requester<C, E>) {" ++ NL
        ++ "  return {" ++ NL
        ++ join ("," ++ NL) (map method (_operationsToInclude this)) ++ NL
        ++ "  };" ++ NL
        ++ "}" ++ NL
        ++ "export type Sdk = ReturnType<typeof getSdk>;".
Proof.
  intros Hrun. cbv zeta. destruct (sdkContent_inr this Hrun) as [acs [Hout Hall]].
  split; [exact (actionOf_all_named Hall) |].
  subst out. unfold sdkOf, sdkText, requesterText. rewrite map_map.
  repeat match goal with
         | |- context [map ?g (_operationsToInclude this)] =>
             first [ replace (map g (_operationsToInclude this))
                       with (map (fun ac => indentMultiline (actionText ac) 2) acs)
                       by emitted_by Hall
                   | replace (map g (_operationsToInclude this))
                       with (map actionImplText acs)
                       by emitted_by Hall ]
         end.
  rewrite !append_assoc. reflexivity.
Qed.

(** C8.  When [rawRequest] is true the result payload of every emitted
    operation is [ExecutionResult<T, E>] for the result type [T] of the
    operation, and the payload of the [Requester] type is
    [ExecutionResult<R, E>]; when it is false they are [T] and [R].  The
    constructor takes [rawRequest] from the raw configuration, [false] when
    missing; when it is true it registers an import of [ExecutionResult],
    and in document mode [string] with [rawRequest] false it registers no
    type import (only the module [usingObservableFrom], if set). *)
Theorem rawRequest_envelope :
  (forall (this : GenericSdkVisitor) (out : string),
      fst (sdkContent this) = inr out ->
      let envelope := fun T : string =>
        if rawRequest (config this) then "ExecutionResult<" ++ T ++ ", E>" else T in
      let u := truthy (usingObservableFrom (config this)) in
    let nameOf := fun o : IncludedOperation =>
      match name (node o) with Some n => value n | None => "" end in
    let function := fun o : IncludedOperation =>
      "export function " ++ nameOf o
        ++ "<C, E>(requester: Requester<C, E>, variables"
        ++ (if optionalVariables (node o) then "?" else "")
        ++ ": " ++ operationVariablesTypes o ++ ", options?: C): "
        ++ returnType u (node o) ++ "<" ++ envelope (operationResultType o) ++ "> {" ++ NL
        ++ "  return requester<" ++ operationResultType o ++ ", "
        ++ operationVariablesTypes o ++ ">("
        ++ getDocumentNodeVariable this (documentVariableName o)
        ++ ", variables, options) as " ++ returnType u (node o) ++ "<"
        ++ envelope (operationResultType o) ++ ">;" ++ NL
        ++ "}" in
    let method := fun o : IncludedOperation =>
      nameOf o ++ "(variables"
        ++ (if optionalVariables (node o) then "?" else "") ++ ": "
        ++ operationVariablesTypes o
        ++ ", options?: C): " ++ returnType u (node o) ++ "<" ++ envelope (operationResultType o)
        ++ "> {" ++ NL
        ++ "  return " ++ nameOf o ++ "(requester, variables, options) as "
        ++ returnType u (node o) ++ "<" ++ envelope (operationResultType o) ++ ">;" ++ NL
        ++ "}" in
      out =
        NL ++ join NL (map (fun o => indentMultiline (function o) 2) (_operationsToInclude this)) ++ NL
        ++ "export type Requester<C = {}, E = unknown> = <R, V>(doc: "
        ++ documentNodeType this ++ ", vars?: V, options?: C) => "
        ++ "Promise<" ++ envelope "R" ++ "> | "
        ++ (if u then "Observable" else "AsyncIterable")
        ++ "<" ++ envelope "R" ++ ">" ++ NL
        ++ "export function getSdk<C, E>(requester: Requester<C, E>) {" ++ NL
        ++ "  return {" ++ NL
        ++ join ("," ++ NL) (map method (_operationsToInclude this)) ++ NL
        ++ "  };" ++ NL
        ++ "}" ++ NL
        ++ "export type Sdk = ReturnType<typeof getSdk>;")
  /\ (forall (super : Base.t) (rawConfig : Raw.t),
         let this := constructor super rawConfig in
         let importType := if Base.useTypeImports super then "import type" else "import" in
         rawRequest (config this) = getConfigValue (Raw.rawRequest rawConfig) false
         /\ (rawRequest (config this) = true ->
             exists before,
               _additionalImports this =
                 (before ++ [(if DocumentMode.eqb (Base.documentMode super) DocumentMode.string
                              then importType ++ " { ExecutionResult } from 'graphql';"
                              else importType
                                     ++ " { DocumentNode, ExecutionResult } from 'graphql';")%string])%list)
         /\ (Base.documentMode super = DocumentMode.string ->
             rawRequest (config this) = false ->
             _additionalImports this =
               (Base._additionalImports super
                  ++ (if truthy (Raw.usingObservableFrom rawConfig)
                      then [text (Raw.usingObservableFrom rawConfig)]
                      else []))%list)).
Proof.
  split.
  - intros this out Hrun. cbv zeta.
    pose proof (sdkContent_text this Hrun) as Htext. cbv zeta in Htext.
    destruct Htext as [_ Hout].
    unfold resultData, requesterReturnType, requesterResultData in Hout.
    rewrite !append_assoc in Hout. exact Hout.
  - intros super rawConfig. cbv zeta. split; [reflexivity |]. split.
    + unfold constructor. simpl. intros Hraw. rewrite Hraw.
      destruct (DocumentMode.eqb (Base.documentMode super) DocumentMode.string); simpl;
        eexists; reflexivity.
    + unfold constructor. simpl. intros Hmode Hraw. rewrite Hmode, Hraw. simpl.
      destruct (truthy (Raw.usingObservableFrom rawConfig)).
      * reflexivity.
      * rewrite app_nil_r. reflexivity.
Qed.

(** C9.  After any sequence of successful visits of a new visitor, every
    accumulated record has a name node, so reading [o.node.name.value] for
    each of them in [sdkContent] throws no [TypeError]: the accessor
    returns. *)
Theorem name_access_safe :
  forall (super : Base.t) (rawConfig : Raw.t) (visits : list Visit)
         (this : GenericSdkVisitor),
    visitAll visits (constructor super rawConfig) = (inr tt, this) ->
    (forall o, In o (_operationsToInclude this) -> name (node o) <> None)
    /\ fst (sdkContent this) <> inl (TypeError "value")
    /\ exists out, sdkContent this = (inr out, this).
Proof.
  intros super rawConfig visits this Hrun.
  assert (Hr : reachable this).
  { pose proof (visitAll_reachable visits (reachable_new super rawConfig)) as Hr.
    rewrite Hrun in Hr. exact Hr. }
  destruct (reachable_sdkContent Hr) as [acs Hok].
  split; [| split].
  - intros o Hin Hn. pose proof (reachable_named Hr) as Hall.
    rewrite forallb_forall in Hall. specialize (Hall o Hin).
    unfold named in Hall. rewrite Hn in Hall. discriminate.
  - rewrite Hok. discriminate.
  - eexists. exact Hok.
Qed.

Lemma actionOf_names this u l acs :
  Forall2 (actionOf this u) l acs ->
  map Some (map Action.operationName acs)
  = map (fun o => option_map value (name (node o))) l.
Proof.
  induction 1 as [| o ac l acs Hac _ IH]; simpl; [reflexivity |].
  destruct (actionOf_fields Hac) as [nm [Hn Heq]]. subst ac. simpl.
  rewrite Hn, IH. reflexivity.
Qed.

(** C10.  Names are not deduplicated.  A visit of a named operation
    appends its record whatever names are already accumulated, and
    [sdkContent] emits one exported function and one method per record, in
    order: the names of the emitted functions are the names of the
    records, repeated as often as they were visited. *)
Theorem duplicate_names_kept :
  (forall (this : GenericSdkVisitor) (n : OperationDefinitionNode)
          (dv ot rt vt : string) (nm : NameNode),
      name n = Some nm ->
      exists this',
        buildOperation n dv ot rt vt this = (inr None, this')
        /\ operationNames this' = (operationNames this ++ [Some (value nm)])%list)
  /\ (forall (this : GenericSdkVisitor) (out : string),
         fst (sdkContent this) = inr out ->
         let u := truthy (usingObservableFrom (config this)) in
    let nameOf := fun o : IncludedOperation =>
      match name (node o) with Some n => value n | None => "" end in
    let function := fun o : IncludedOperation =>
      "export function " ++ nameOf o
        ++ "<C, E>(requester: Requester<C, E>, variables"
        ++ (if optionalVariables (node o) then "?" else "")
        ++ ": " ++ operationVariablesTypes o ++ ", options?: C): "
        ++ returnType u (node o) ++ "<" ++ resultData this o ++ "> {" ++ NL
        ++ "  return requester<" ++ operationResultType o ++ ", "
        ++ operationVariablesTypes o ++ ">("
        ++ getDocumentNodeVariable this (documentVariableName o)
        ++ ", variables, options) as " ++ returnType u (node o) ++ "<"
        ++ resultData this o ++ ">;" ++ NL
        ++ "}" in
    let method := fun o : IncludedOperation =>
      nameOf o ++ "(variables"
        ++ (if optionalVariables (node o) then "?" else "") ++ ": "
        ++ operationVariablesTypes o
        ++ ", options?: C): " ++ returnType u (node o) ++ "<" ++ resultData this o
        ++ "> {" ++ NL
        ++ "  return " ++ nameOf o ++ "(requester, variables, options) as "
        ++ returnType u (node o) ++ "<" ++ resultData this o ++ ">;" ++ NL
        ++ "}" in
         (forall o, In o (_operationsToInclude this) -> name (node o) <> None)
         /\ out =
             NL ++ join NL (map (fun o => indentMultiline (function o) 2) (_operationsToInclude this)) ++ NL
        ++ "export type Requester<C = {}, E = unknown> = <R, V>(doc: "
        ++ documentNodeType this ++ ", vars?: V, options?: C) => "
        ++ requesterReturnType this u ++ NL
        ++ "export function getSdk<C, E>(requester: Requester<C, E>) {" ++ NL
        ++ "  return {" ++ NL
        ++ join ("," ++ NL) (map method (_operationsToInclude this)) ++ NL
        ++ "  };" ++ NL
        ++ "}" ++ NL
        ++ "export type Sdk = ReturnType<typeof getSdk>;").
Proof.
  split.
  - intros this n dv ot rt vt nm Hn. eexists. split.
    + apply (buildOperation_named n dv ot rt vt this Hn).
    + unfold operationNames, push. simpl. rewrite map_app. simpl. rewrite Hn. reflexivity.
  - intros this out Hrun. cbv zeta.
    pose proof (sdkContent_text this Hrun) as Htext. cbv zeta in Htext.
    destruct Htext as [Hnamed Hout]. split.
    + intros o Hin Hn. rewrite forallb_forall in Hnamed. specialize (Hnamed o Hin).
      unfold named in Hnamed. rewrite Hn in Hnamed. discriminate.
    + rewrite !append_assoc in Hout. exact Hout.
Qed.

End Claims.

(** ** Concrete runs *)

(** The same query visited twice: two exported functions and two methods
    of the same name. *)
Example sdkContent_twice :
  Sample.rendered Sample.twice = "
    export function GetUser<C, E>(requester: Requester<C, E>, variables: GetUserVariables, options?: C): Promise<GetUserResult> {
      return requester<GetUserResult, GetUserVariables>(GetUserDocument, variables, options) as Promise<GetUserResult>;
    }
    export function GetUser<C, E>(requester: Requester<C, E>, variables: GetUserVariables, options?: C): Promise<GetUserResult> {
      return requester<GetUserResult, GetUserVariables>(GetUserDocument, variables, options) as Promise<GetUserResult>;
    }
export type Requester<C = {}, E = unknown> = <R, V>(doc: DocumentNode, vars?: V, options?: C) => Promise<R> | AsyncIterable<R>
export function getSdk<C, E>(requester: Requester<C, E>) {
  return {
GetUser(variables: GetUserVariables, options?: C): Promise<GetUserResult> {
  return GetUser(requester, variables, options) as Promise<GetUserResult>;
},
GetUser(variables: GetUserVariables, options?: C): Promise<GetUserResult> {
  return GetUser(requester, variables, options) as Promise<GetUserResult>;
}
  };
}
export type Sdk = ReturnType<typeof getSdk>;".
Proof. reflexivity. Qed.

(** A subscription with an observable module, the raw envelope, external
    documents and prefixed types. *)
Example sdkContent_observed :
  Sample.rendered Sample.observed = "
    export function OnMessage<C, E>(requester: Requester<C, E>, variables?: Types.OnMessageVariables, options?: C): Observable<ExecutionResult<Types.OnMessageResult, E>> {
      return requester<Types.OnMessageResult, Types.OnMessageVariables>(Operations.OnMessageDocument, variables, options) as Observable<ExecutionResult<Types.OnMessageResult, E>>;
    }
export type Requester<C = {}, E = unknown> = <R, V>(doc: DocumentNode, vars?: V, options?: C) => Promise<ExecutionResult<R, E>> | Observable<ExecutionResult<R, E>>
export function getSdk<C, E>(requester: Requester<C, E>) {
  return {
OnMessage(variables?: Types.OnMessageVariables, options?: C): Observable<ExecutionResult<Types.OnMessageResult, E>> {
  return OnMessage(requester, variables, options) as Observable<ExecutionResult<Types.OnMessageResult, E>>;
}
  };
}
export type Sdk = ReturnType<typeof getSdk>;".
Proof. reflexivity. Qed.

(** The imports the constructor registers for that configuration: the
    observable module once, then the type import. *)
Example constructor_observed_imports :
  _additionalImports (constructor Sample.observableSuper Sample.observableConfig)
  = ["import Observable from 'zen-observable';";
     "import type { DocumentNode, ExecutionResult } from 'graphql';"].
Proof. reflexivity. Qed.

(** Document mode [string] without [rawRequest]: nothing is registered. *)
Example constructor_string_imports :
  _additionalImports
    (constructor
       {| Base.documentMode := DocumentMode.string;
          Base.useTypeImports := false;
          Base.importOperationTypesFrom := None;
          Base._additionalImports := [] |}
       Sample.rawConfig)
  = [].
Proof. reflexivity. Qed.

(** The read of [o.node.name.value] does throw on a record without name:
    the safety of [sdkContent] rests on the invariant of the list. *)
Example sdkContent_forged :
  @sdkContent Sample.collaborators Sample.forged = (inl (TypeError "value"), Sample.forged).
Proof. reflexivity. Qed.

(** A live query is stream-like, a mutation with the same directive is not. *)
Example isStreamOperation_live :
  isStreamOperation
    (Sample.operationNode query (Some "Feed") None
       (Some [{| directive_name := {| value := "live" |}; directive_arguments := [] |}]))
  = true
  /\ isStreamOperation
       (Sample.operationNode mutation (Some "Feed") None
          (Some [{| directive_name := {| value := "live" |}; directive_arguments := [] |}]))
     = false.
Proof. split; reflexivity. Qed.

(** Reads, from a [Forall2] over a concrete list whose relation is a
    conjunction starting with an equation on a field, the value of that
    field for each element. *)
Ltac first_fields Hall :=
  repeat match goal with
         | Hf : Forall2 _ (_ :: _) _ |- _ => inversion Hf; subst; clear Hf
         | Hf : Forall2 _ [] _ |- _ => inversion Hf; subst; clear Hf
         | Hc : _ /\ _ |- _ => destruct Hc as [Hc _]
         end;
  simpl;
  repeat match goal with Hc : _ = _ |- _ => rewrite Hc; clear Hc end.

Lemma sample_reachable : @reachable Sample.collaborators Sample.visited.
Proof. apply visitAll_reachable. apply reachable_new. Qed.

(** An instance of C2: a query with one non-null variable without default
    gets [variables]; a mutation without variable list and a subscription
    with an empty one get [variables?]. *)
Lemma optionalVariables_flag_witness :
  exists acs,
    Sample.rendered Sample.visited = @sdkOf Sample.collaborators Sample.visited acs
    /\ map Action.optionalVariables acs = [false; true; true].
Proof.
  destruct (proj2 (@optionalVariables_flag Sample.collaborators Sample.visited)
              _ eq_refl) as [acs [Hout Hall]].
  exists acs. split; [exact Hout |].
  clear Hout. simpl in Hall. first_fields Hall. reflexivity.
Defined.

(** An instance of C3: the message for [query { id }], and the visitor
    unchanged. *)
Lemma unnamed_operation_error_witness :
  @buildOperation Sample.collaborators Sample.unnamed "Document" "Query" "Result" "Variables"
    Sample.visited
  = (inl (Error ("Plugin 'generic-sdk' cannot generate SDK for unnamed operation."
                   ++ NL ++ NL ++ "query { id }")), Sample.visited).
Proof.
  exact (proj1 (@unnamed_operation_error Sample.collaborators Sample.unnamed
                  "Document" "Query" "Result" "Variables" Sample.visited) eq_refl).
Defined.

(** C4 as stated fails: a name node with an empty text is accepted, and its
    record is appended. *)
Lemma empty_name_accepted :
  fst (@buildOperation Sample.collaborators Sample.emptyName "Document" "Query" "Result"
         "Variables" (constructor Sample.super Sample.rawConfig)) = inr None
  /\ operationNames
       (snd (@buildOperation Sample.collaborators Sample.emptyName "Document" "Query"
               "Result" "Variables" (constructor Sample.super Sample.rawConfig)))
     = [Some ""].
Proof. split; reflexivity. Qed.

(** An instance of C4 as amended. *)
Lemma named_records_witness :
  @reachable Sample.collaborators Sample.visited
  /\ (forall o, In o (_operationsToInclude Sample.visited) ->
                exists nm, name (node o) = Some nm).
Proof.
  split; [exact sample_reachable |].
  exact (proj1 (@named_records Sample.collaborators Sample.visited sample_reachable)).
Defined.

(** An instance of C5: two reads of the same visitor. *)
Lemma sdkContent_pure_witness :
  @sdkContent Sample.collaborators (snd (@sdkContent Sample.collaborators Sample.visited))
  = @sdkContent Sample.collaborators Sample.visited.
Proof.
  exact (proj1 (proj2 (proj2 (@sdkContent_pure Sample.collaborators Sample.visited)))).
Defined.

(** C6 as stated fails: a visitor whose only operation is a plain query,
    so that no operation uses a stream shape, still declares the stream
    alternative of the [Requester] type. *)
Lemma stream_alternative_unconditional :
  map (fun o => isStreamOperation (node o)) (_operationsToInclude Runs.original) = [false]
  /\ fst (@sdkContent Sample.collaborators Runs.original)
     = inr (Sample.rendered Runs.original)
  /\ mentions "=> Promise<R> | AsyncIterable<R>" (Sample.rendered Runs.original) = true.
Proof. repeat split. Qed.

(** An instance of C6 as amended: a subscription, an observable module and
    the envelope. *)
Lemma requester_return_type_witness :
  fst (@sdkContent Sample.collaborators Sample.observed)
  = inr (Sample.rendered Sample.observed)
  /\ exists actions methods : list string,
      List.length actions = 1
      /\ List.length methods = 1
      /\ Sample.rendered Sample.observed =
           NL ++ join NL actions ++ NL
             ++ "export type Requester<C = {}, E = unknown> = <R, V>(doc: DocumentNode, vars?: V, options?: C) => Promise<ExecutionResult<R, E>> | Observable<ExecutionResult<R, E>>"
             ++ NL
             ++ "export function getSdk<C, E>(requester: Requester<C, E>) {" ++ NL
             ++ "  return {" ++ NL
             ++ join ("," ++ NL) methods ++ NL
             ++ "  };" ++ NL
             ++ "}" ++ NL
             ++ "export type Sdk = ReturnType<typeof getSdk>;".
Proof.
  split; [reflexivity |].
  exact (@requester_return_type Sample.collaborators Sample.observed _ eq_refl).
Defined.

(** An instance of C7: query and mutation return a [Promise], the
    subscription an [AsyncIterable], no observable being configured. *)
Lemma returnType_shape_witness :
  fst (@sdkContent Sample.collaborators Sample.visited) = inr (Sample.rendered Sample.visited)
  /\ exists acs,
      Sample.rendered Sample.visited = @sdkOf Sample.collaborators Sample.visited acs
      /\ map Action.returnType acs = ["Promise"; "Promise"; "AsyncIterable"].
Proof.
  split; [reflexivity |].
  destruct (@returnType_shape Sample.collaborators Sample.visited _ eq_refl)
    as [acs [Hout Hall]].
  exists acs. split; [exact Hout |].
  clear Hout. simpl in Hall. first_fields Hall. reflexivity.
Defined.

(** An instance of C8: with [rawRequest] true the payload of the emitted
    function, of the method and of the [Requester] type is the envelope,
    and the import of [ExecutionResult] is registered. *)
Lemma rawRequest_envelope_witness :
  fst (@sdkContent Sample.collaborators Sample.observed)
  = inr (Sample.rendered Sample.observed)
  /\ Sample.rendered Sample.observed = "
    export function OnMessage<C, E>(requester: Requester<C, E>, variables?: Types.OnMessageVariables, options?: C): Observable<ExecutionResult<Types.OnMessageResult, E>> {
      return requester<Types.OnMessageResult, Types.OnMessageVariables>(Operations.OnMessageDocument, variables, options) as Observable<ExecutionResult<Types.OnMessageResult, E>>;
    }
export type Requester<C = {}, E = unknown> = <R, V>(doc: DocumentNode, vars?: V, options?: C) => Promise<ExecutionResult<R, E>> | Observable<ExecutionResult<R, E>>
export function getSdk<C, E>(requester: Requester<C, E>) {
  return {
OnMessage(variables?: Types.OnMessageVariables, options?: C): Observable<ExecutionResult<Types.OnMessageResult, E>> {
  return OnMessage(requester, variables, options) as Observable<ExecutionResult<Types.OnMessageResult, E>>;
}
  };
}
export type Sdk = ReturnType<typeof getSdk>;"
  /\ exists before,
      _additionalImports (constructor Sample.observableSuper Sample.observableConfig)
      = (before ++ ["import type { DocumentNode, ExecutionResult } from 'graphql';"])%list.
Proof.
  split; [reflexivity |]. split.
  - exact (proj1 (@rawRequest_envelope Sample.collaborators) Sample.observed _ eq_refl).
  - exact (proj1 (proj2 (proj2 (@rawRequest_envelope Sample.collaborators)
                           Sample.observableSuper Sample.observableConfig))
             eq_refl).
Defined.

(** An instance of C9: three successful visits, then a read that returns. *)
Lemma name_access_safe_witness :
  @visitAll Sample.collaborators
    [Sample.arguments Sample.getUser "GetUser"; Sample.arguments Sample.touch "Touch";
     Sample.arguments Sample.onMessage "OnMessage"]
    (constructor Sample.super Sample.rawConfig) = (inr tt, Sample.visited)
  /\ exists out, @sdkContent Sample.collaborators Sample.visited = (inr out, Sample.visited).
Proof.
  split; [reflexivity |].
  exact (proj2 (proj2 (@name_access_safe Sample.collaborators Sample.super Sample.rawConfig
                         [Sample.arguments Sample.getUser "GetUser";
                          Sample.arguments Sample.touch "Touch";
                          Sample.arguments Sample.onMessage "OnMessage"]
                         Sample.visited eq_refl))).
Defined.

(** An instance of C10: the same query visited twice is emitted twice. *)
Lemma duplicate_names_kept_witness :
  fst (@sdkContent Sample.collaborators Sample.twice) = inr (Sample.rendered Sample.twice)
  /\ Sample.rendered Sample.twice = "
    export function GetUser<C, E>(requester: Requester<C, E>, variables: GetUserVariables, options?: C): Promise<GetUserResult> {
      return requester<GetUserResult, GetUserVariables>(GetUserDocument, variables, options) as Promise<GetUserResult>;
    }
    export function GetUser<C, E>(requester: Requester<C, E>, variables: GetUserVariables, options?: C): Promise<GetUserResult> {
      return requester<GetUserResult, GetUserVariables>(GetUserDocument, variables, options) as Promise<GetUserResult>;
    }
export type Requester<C = {}, E = unknown> = <R, V>(doc: DocumentNode, vars?: V, options?: C) => Promise<R> | AsyncIterable<R>
export function getSdk<C, E>(requester: Requester<C, E>) {
  return {
GetUser(variables: GetUserVariables, options?: C): Promise<GetUserResult> {
  return GetUser(requester, variables, options) as Promise<GetUserResult>;
},
GetUser(variables: GetUserVariables, options?: C): Promise<GetUserResult> {
  return GetUser(requester, variables, options) as Promise<GetUserResult>;
}
  };
}
export type Sdk = ReturnType<typeof getSdk>;".
Proof.
  split; [reflexivity |].
  exact (proj2 (proj2 (@duplicate_names_kept Sample.collaborators) Sample.twice _ eq_refl)).
Defined.

(** * Further properties of the visitor *)

(** ** Runs of visits *)

Section Runs.

Context `{Collaborators}.

Lemma pushAll_nil this : pushAll [] this = this.
Proof. destruct this. unfold pushAll. simpl. rewrite app_nil_r. reflexivity. Qed.

Lemma pushAll_push o os this : pushAll os (push o this) = pushAll (o :: os) this.
Proof. unfold pushAll, push. simpl. rewrite <- app_assoc. reflexivity. Qed.

Lemma pushAll_pushAll os os' this :
  pushAll os' (pushAll os this) = pushAll (os ++ os') this.
Proof. unfold pushAll. simpl. rewrite <- app_assoc. reflexivity. Qed.

Lemma visit_named_run a this :
  namedVisit a = true -> visit a this = (inr None, push (recordOf this a) this).
Proof.
  unfold namedVisit, visit. destruct (name (visit_node a)) as [nm |] eqn:Hn; [| discriminate].
  intros _. apply (buildOperation_named _ _ _ _ _ this Hn).
Qed.

Lemma visit_unnamed_run a this :
  namedVisit a = false ->
  visit a this = (inl (Error (unnamedOperationMessage (visit_node a))), this).
Proof.
  unfold namedVisit, visit. destruct (name (visit_node a)) as [nm |] eqn:Hn; [discriminate |].
  intros _. apply (buildOperation_unnamed _ _ _ _ _ this Hn).
Qed.

Lemma visitAll_named_run l this :
  forallb namedVisit l = true ->
  visitAll l this = (inr tt, pushAll (map (recordOf this) l) this).
Proof.
  revert this. induction l as [| a l IH]; intros this Hl; simpl.
  - unfold ret. rewrite pushAll_nil. reflexivity.
  - simpl in Hl. apply andb_true_iff in Hl. destruct Hl as [Ha Hl].
    unfold bind. rewrite (visit_named_run a this Ha), (IH _ Hl), pushAll_push.
    reflexivity.
Qed.

Lemma visitAll_app l1 l2 this :
  visitAll (l1 ++ l2) this =
    match visitAll l1 this with
    | (inr _, this') => visitAll l2 this'
    | (inl e, this') => (inl e, this')
    end.
Proof.
  revert this. induction l1 as [| a l1 IH]; intros this; simpl.
  - reflexivity.
  - unfold bind. destruct (visit a this) as [[e | r] this']; [reflexivity | apply IH].
Qed.

Lemma visitAll_inr l this :
  fst (visitAll l this) = inr tt -> forallb namedVisit l = true.
Proof.
  revert this. induction l as [| a l IH]; intros this; simpl; [reflexivity |].
  unfold bind. destruct (namedVisit a) eqn:Ha.
  - rewrite (visit_named_run a this Ha). simpl. apply IH.
  - rewrite (visit_unnamed_run a this Ha). discriminate.
Qed.

(** X1.  A run of visits returns exactly when every visited operation has
    a name, and it then leaves the visitor with one record per visit at the
    end of its list, in the order of the visits, each with its two type
    names behind the prefix; configuration, imports and prefix are as
    before. *)
Theorem visitAll_accumulates :
  forall (l : list Visit) (this : GenericSdkVisitor),
    (fst (visitAll l this) = inr tt <-> forallb namedVisit l = true)
    /\ (forallb namedVisit l = true ->
        visitAll l this = (inr tt, pushAll (map (recordOf this) l) this)).
Proof.
  intros l this. split; [split |].
  - apply visitAll_inr.
  - intros Hl. rewrite (visitAll_named_run l this Hl). reflexivity.
  - apply visitAll_named_run.
Qed.

(** X2.  A run stops at the first operation without name: it throws the
    error of that operation, the records of the visits before it stay in
    the list, and the visits after it leave no trace. *)
Theorem visitAll_aborts :
  forall (l1 : list Visit) (a : Visit) (l2 : list Visit) (this : GenericSdkVisitor),
    forallb namedVisit l1 = true ->
    name (visit_node a) = None ->
    visitAll (l1 ++ a :: l2) this =
      (inl (Error ("Plugin 'generic-sdk' cannot generate SDK for unnamed operation."
                     ++ NL ++ NL ++ print (visit_node a))),
       pushAll (map (recordOf this) l1) this).
Proof.
  intros l1 a l2 this Hl1 Ha.
  rewrite visitAll_app, (visitAll_named_run l1 this Hl1). simpl. unfold bind.
  rewrite visit_unnamed_run; [reflexivity |].
  unfold namedVisit. rewrite Ha. reflexivity.
Qed.

(** Every reachable visitor is a constructed one with records of named
    visits at the end of its list. *)
Lemma reachable_shape this :
  reachable this ->
  exists super rawConfig l,
    forallb namedVisit l = true
    /\ this = pushAll (map (recordOf (constructor super rawConfig)) l)
                (constructor super rawConfig).
Proof.
  induction 1 as [super rawConfig | this a _ IH | this _ IH].
  - exists super, rawConfig, []. split; [reflexivity |].
    simpl. rewrite pushAll_nil. reflexivity.
  - destruct IH as [super [rawConfig [l [Hl Heq]]]].
    destruct (namedVisit a) eqn:Ha.
    + exists super, rawConfig, (l ++ [a])%list. split.
      * rewrite forallb_app, Hl. simpl. rewrite Ha. reflexivity.
      * rewrite (visit_named_run a this Ha). simpl snd. subst this.
        rewrite map_app. unfold push, pushAll. simpl. reflexivity.
    + exists super, rawConfig, l. split; [exact Hl |].
      rewrite (visit_unnamed_run a this Ha). exact Heq.
  - rewrite readOnly_sdkContent. exact IH.
Qed.

Lemma visitAll_evolves start l this :
  evolves start this -> evolves start (snd (visitAll l this)).
Proof.
  revert this. induction l as [| a l IH]; intros this He; simpl.
  - exact He.
  - unfold bind. pose proof (evolves_visit a He) as Hv.
    destruct (visit a this) as [[e | r] this']; simpl in *.
    + exact Hv.
    + apply IH. exact Hv.
Qed.

(** X3.  Visits and reads of [sdkContent], returning or throwing, never
    alter the configuration, the import list or the prefix of a visitor,
    and never remove or reorder its records: whatever a visitor becomes,
    these three are as they were, and its list is the former list followed
    by the records of visits of named operations. *)
Theorem visitor_frame :
  forall start this : GenericSdkVisitor,
    evolves start this ->
    config this = config start
    /\ _additionalImports this = _additionalImports start
    /\ _externalImportPrefix this = _externalImportPrefix start
    /\ exists l : list Visit,
        forallb namedVisit l = true
        /\ _operationsToInclude this
           = (_operationsToInclude start ++ map (recordOf start) l)%list.
Proof.
  intros start this He.
  assert (Hshape : exists l, forallb namedVisit l = true
                             /\ this = pushAll (map (recordOf start) l) start).
  { induction He as [| this a _ IH | this _ IH].
    - exists []. split; [reflexivity |]. simpl. rewrite pushAll_nil. reflexivity.
    - destruct IH as [l [Hl Heq]]. destruct (namedVisit a) eqn:Ha.
      + exists (l ++ [a])%list. split.
        * rewrite forallb_app, Hl. simpl. rewrite Ha. reflexivity.
        * rewrite (visit_named_run a this Ha). simpl snd. subst this.
          rewrite map_app. unfold push, pushAll. simpl. rewrite <- app_assoc. reflexivity.
      + exists l. split; [exact Hl |].
        rewrite (visit_unnamed_run a this Ha). exact Heq.
    - rewrite readOnly_sdkContent. exact IH. }
  destruct Hshape as [l [Hl Heq]]. subst this.
  repeat split. exists l. split; [exact Hl | reflexivity].
Qed.

(** X4.  In every reachable visitor the prefix is the alias
    [importOperationTypesFrom] followed by a dot, or empty when the alias
    is missing or empty, and both type names of every accumulated record
    start with that prefix. *)
Theorem records_qualified :
  forall this : GenericSdkVisitor,
    reachable this ->
    _externalImportPrefix this
    = match importOperationTypesFrom (config this) with
      | Some (String c s) => String c s ++ "."
      | _ => ""
      end
    /\ (forall o, In o (_operationsToInclude this) ->
        exists rt vt,
          operationResultType o = _externalImportPrefix this ++ rt
          /\ operationVariablesTypes o = _externalImportPrefix this ++ vt).
Proof.
  intros this Hr. destruct (reachable_shape Hr) as [super [rawConfig [l [Hl Heq]]]].
  subst this. split.
  - simpl. destruct (Base.importOperationTypesFrom super) as [[| c s] |]; reflexivity.
  - intros o Hin. simpl in Hin. apply in_map_iff in Hin. destruct Hin as [a [Ho _]].
    subst o. eexists. eexists. split; reflexivity.
Qed.

End Runs.

(** ** Rendering and the constructor *)

Section Emitted.

Context `{Collaborators}.

Lemma mapM_actionOf this u l acs s :
  Forall2 (actionOf this u) l acs ->
  mapM (actionConfig this u) l s = (inr acs, s).
Proof.
  induction 1 as [| o ac l acs Hac _ IH]; simpl; [reflexivity |].
  unfold bind. rewrite (Hac s), IH. reflexivity.
Qed.

Lemma sdkContent_actionOf this acs :
  Forall2 (actionOf this (truthy (usingObservableFrom (config this))))
    (_operationsToInclude this) acs ->
  sdkContent this = (inr (sdkOf this acs), this).
Proof.
  intros Hall. unfold sdkContent, bind, get.
  rewrite (mapM_actionOf this Hall). reflexivity.
Qed.

(** X5.  The body of every exported function calls the requester with the
    result type and the variables type of the record as type arguments,
    never the envelope, and with the document variable of the record,
    qualified by [Operations.] exactly in document mode [external]. *)
Theorem document_reference :
  forall (this : GenericSdkVisitor) (out : string),
    fst (sdkContent this) = inr out ->
    exists acs,
      out = sdkOf this acs
      /\ Forall2
           (fun o ac =>
              let reference :=
                match documentMode (config this) with
                | DocumentMode.external => "Operations." ++ documentVariableName o
                | _ => documentVariableName o
                end in
              Action.docVarName ac = reference
              /\ exists signature,
                  actionText ac =
                    signature ++ NL
                      ++ "  return requester<" ++ operationResultType o ++ ", "
                      ++ operationVariablesTypes o ++ ">(" ++ reference
                      ++ ", variables, options) as " ++ Action.returnType ac ++ "<"
                      ++ Action.resultData ac ++ ">;" ++ NL
                      ++ "}")
           (_operationsToInclude this) acs.
Proof.
  intros this out. apply sdkContent_actions.
  intros o ac Hac. destruct (actionOf_fields Hac) as [nm [_ Heq]]. subst ac.
  cbv zeta. simpl Action.docVarName.
  assert (Href : getDocumentNodeVariable this (documentVariableName o)
                 = match documentMode (config this) with
                   | DocumentMode.external => "Operations." ++ documentVariableName o
                   | _ => documentVariableName o
                   end).
  { unfold getDocumentNodeVariable. destruct (documentMode (config this)); reflexivity. }
  split; [exact Href |].
  unfold actionText. simpl. rewrite Href.
  exists ("export function " ++ value nm
            ++ "<C, E>(requester: Requester<C, E>, variables"
            ++ (if optionalVariables (node o) then "?" else "")
            ++ ": " ++ operationVariablesTypes o ++ ", options?: C): "
            ++ returnType (truthy (usingObservableFrom (config this))) (node o)
            ++ "<" ++ resultData this o ++ "> {").
  rewrite !append_assoc. reflexivity.
Qed.

(** X6.  A visitor whose list is empty renders without calling a
    collaborator: no exported function, the [Requester] type, and a
    [getSdk] that returns an object without methods. *)
Theorem sdkContent_empty :
  forall this : GenericSdkVisitor,
    _operationsToInclude this = [] ->
    sdkContent this =
      (inr (NL ++ NL
              ++ requesterText this (truthy (usingObservableFrom (config this))) ++ NL
              ++ "export function getSdk<C, E>(requester: Requester<C, E>) {" ++ NL
              ++ "  return {" ++ NL
              ++ NL
              ++ "  };" ++ NL
              ++ "}" ++ NL
              ++ "export type Sdk = ReturnType<typeof getSdk>;"), this).
Proof.
  intros this Hops. unfold sdkContent, bind, get. rewrite Hops. reflexivity.
Qed.

(** X7.  Rendering follows the visits: after one more visit of a named
    operation, the text [sdkContent] returns has the exported functions
    and the methods it had before, in the same order, followed by the
    function and the method of the new record. *)
Theorem render_after_visit :
  forall (this : GenericSdkVisitor) (a : Visit) (nm : NameNode) (out : string),
    name (visit_node a) = Some nm ->
    fst (sdkContent this) = inr out ->
    let u := truthy (usingObservableFrom (config this)) in
    let nameOf := fun o : IncludedOperation =>
      match name (node o) with Some n => value n | None => "" end in
    let function := fun o : IncludedOperation =>
      "export function " ++ nameOf o
        ++ "<C, E>(requester: Requester<C, E>, variables"
        ++ (if optionalVariables (node o) then "?" else "")
        ++ ": " ++ operationVariablesTypes o ++ ", options?: C): "
        ++ returnType u (node o) ++ "<" ++ resultData this o ++ "> {" ++ NL
        ++ "  return requester<" ++ operationResultType o ++ ", "
        ++ operationVariablesTypes o ++ ">("
        ++ getDocumentNodeVariable this (documentVariableName o)
        ++ ", variables, options) as " ++ returnType u (node o) ++ "<"
        ++ resultData this o ++ ">;" ++ NL
        ++ "}" in
    let method := fun o : IncludedOperation =>
      nameOf o ++ "(variables"
        ++ (if optionalVariables (node o) then "?" else "") ++ ": "
        ++ operationVariablesTypes o
        ++ ", options?: C): " ++ returnType u (node o) ++ "<" ++ resultData this o
        ++ "> {" ++ NL
        ++ "  return " ++ nameOf o ++ "(requester, variables, options) as "
        ++ returnType u (node o) ++ "<" ++ resultData this o ++ ">;" ++ NL
        ++ "}" in
    nameOf (recordOf this a) = value nm
    /\ out =
        NL ++ join NL (map (fun o => indentMultiline (function o) 2) (_operationsToInclude this)) ++ NL
        ++ "export type Requester<C = {}, E = unknown> = <R, V>(doc: "
        ++ documentNodeType this ++ ", vars?: V, options?: C) => "
        ++ requesterReturnType this u ++ NL
        ++ "export function getSdk<C, E>(requester: Requester<C, E>) {" ++ NL
        ++ "  return {" ++ NL
        ++ join ("," ++ NL) (map method (_operationsToInclude this)) ++ NL
        ++ "  };" ++ NL
        ++ "}" ++ NL
        ++ "export type Sdk = ReturnType<typeof getSdk>;"
    /\ sdkContent (snd (visit a this)) =
        (inr (NL ++ join NL (map (fun o => indentMultiline (function o) 2) (_operationsToInclude this ++ [recordOf this a])%list) ++ NL
        ++ "export type Requester<C = {}, E = unknown> = <R, V>(doc: "
        ++ documentNodeType this ++ ", vars?: V, options?: C) => "
        ++ requesterReturnType this u ++ NL
        ++ "export function getSdk<C, E>(requester: Requester<C, E>) {" ++ NL
        ++ "  return {" ++ NL
        ++ join ("," ++ NL) (map method (_operationsToInclude this ++ [recordOf this a])%list) ++ NL
        ++ "  };" ++ NL
        ++ "}" ++ NL
        ++ "export type Sdk = ReturnType<typeof getSdk>;"),
         snd (visit a this)).
Proof.
  intros this a nm out Hn Hrun. cbv zeta.
  pose proof (sdkContent_text this Hrun) as Htext. cbv zeta in Htext.
  destruct Htext as [Hnamed Hout].
  assert (Ha : namedVisit a = true) by (unfold namedVisit; rewrite Hn; reflexivity).
  split; [simpl; rewrite Hn; reflexivity |].
  split; [rewrite !append_assoc in Hout; exact Hout |].
  rewrite (visit_named_run a this Ha). simpl snd.
  assert (Hnamed' : forallb named (_operationsToInclude (push (recordOf this a) this)) = true).
  { apply forallb_named_push; [exact Hnamed |]. unfold named. simpl. rewrite Hn. reflexivity. }
  destruct (sdkContent_named _ Hnamed') as [acs' [Hrun' _]].
  assert (Hfst : fst (sdkContent (push (recordOf this a) this))
                 = inr (sdkOf (push (recordOf this a) this) acs'))
    by (rewrite Hrun'; reflexivity).
  pose proof (sdkContent_text _ Hfst) as Htext'. cbv zeta in Htext'.
  destruct Htext' as [_ Hout']. rewrite Hrun', Hout', !append_assoc. reflexivity.
Qed.

Lemma mapM_sameRendering this this' u l l' s s' :
  config this = config this' ->
  Forall2 sameRendering l l' ->
  fst (mapM (actionConfig this u) l s) = fst (mapM (actionConfig this' u) l' s').
Proof.
  intros Hc. induction 1 as [| o o' l l' Ho _ IH]; simpl; [reflexivity |].
  destruct Ho as [Hname [Hopt [Hstream [Hdoc [Hres Hvars]]]]].
  unfold bind at 1 3.
  destruct (name (node o)) as [nm |] eqn:Hn; destruct (name (node o')) as [nm' |] eqn:Hn';
    simpl in Hname; try discriminate.
  - rewrite (actionConfig_named this u o s Hn), (actionConfig_named this' u o' s' Hn').
    unfold bind at 1 2.
    destruct (mapM (actionConfig this u) l s) as [[e1 | ys1] s1];
      destruct (mapM (actionConfig this' u) l' s') as [[e2 | ys2] s2];
      simpl in IH; try discriminate; inversion IH; subst; simpl; [reflexivity |].
    inversion Hname as [Hvalue].
    unfold getDocumentNodeVariable, returnType, resultData.
    rewrite Hvalue, Hopt, Hstream, Hdoc, Hres, Hvars, Hc. reflexivity.
  - rewrite (actionConfig_unnamed this u o s Hn), (actionConfig_unnamed this' u o' s' Hn').
    reflexivity.
Qed.

(** X8.  [sdkContent] reads of a record only the text of its name, the flag
    of its variables, its stream classification and the three names given
    at the visit: two visitors of equal configuration whose records agree
    on these render alike, whatever the operation-type labels, selection
    sets, variable names or directive arguments. *)
Theorem rendering_reads :
  forall this this' : GenericSdkVisitor,
    config this = config this' ->
    Forall2 sameRendering (_operationsToInclude this) (_operationsToInclude this') ->
    fst (sdkContent this) = fst (sdkContent this').
Proof.
  intros this this' Hc Hall. unfold sdkContent, bind, get.
  pose proof (mapM_sameRendering this this' (truthy (usingObservableFrom (config this)))
                this this' Hc Hall) as Hm.
  rewrite <- Hc.
  destruct (mapM (actionConfig this _) _ this) as [[e1 | ys1] s1];
    destruct (mapM (actionConfig this' _) _ this') as [[e2 | ys2] s2];
    simpl in Hm; try discriminate; inversion Hm; subst; simpl; [reflexivity |].
  unfold sdkText, requesterText, requesterReturnType, requesterResultData, documentNodeType.
  rewrite Hc. reflexivity.
Qed.

(** X9.  The constructor only appends to the import list: the module
    [usingObservableFrom] when it is set and not empty, then at most one
    import statement from [graphql], which names [DocumentNode] exactly when
    the [Requester] type that will be emitted does, and [ExecutionResult]
    exactly when the payloads are the envelope. *)
Theorem imports_match_emitted_types :
  forall (super : Base.t) (rawConfig : Raw.t),
    let this := constructor super rawConfig in
    exists types : list string,
      _additionalImports this =
        (Base._additionalImports super
           ++ match Raw.usingObservableFrom rawConfig with
              | Some (String c s) => [String c s]
              | _ => []
              end
           ++ types)%list
      /\ List.length types <= 1
      /\ existsb (mentions "DocumentNode") types
         = mentions "DocumentNode" (documentNodeType this)
      /\ existsb (mentions "ExecutionResult") types
         = mentions "ExecutionResult" (requesterResultData this)
      /\ Forall (fun s => mentions "from 'graphql';" s = true
                          /\ prefix (if Base.useTypeImports super
                                     then "import type {" else "import {") s = true)
           types.
Proof.
  intros super rawConfig. cbv zeta.
  unfold constructor, documentNodeType, requesterResultData. simpl.
  destruct (DocumentMode.eqb (Base.documentMode super) DocumentMode.string);
    destruct (getConfigValue (Raw.rawRequest rawConfig) false);
    destruct (Base.useTypeImports super);
    destruct (Raw.usingObservableFrom rawConfig) as [[| c s] |]; simpl;
    (eexists; split;
     [ first [ reflexivity
             | symmetry; apply app_nil_r
             | rewrite <- app_assoc; reflexivity ]
     | repeat split; repeat constructor ]).
Qed.

End Emitted.

(** ** Concrete runs of the further properties *)

Lemma observed_reachable : @reachable Sample.collaborators Sample.observed.
Proof. apply reachable_visit. apply reachable_new. Qed.

(** An instance of X2: a named query, an unnamed one, a mutation; the run
    throws at the second, keeps the first and never visits the third. *)
Lemma visitAll_aborts_witness :
  @visitAll Sample.collaborators
    [Sample.arguments Sample.getUser "GetUser";
     Sample.arguments Sample.unnamed "Anonymous";
     Sample.arguments Sample.touch "Touch"]
    (constructor Sample.super Sample.rawConfig)
  = (inl (Error ("Plugin 'generic-sdk' cannot generate SDK for unnamed operation."
                   ++ NL ++ NL ++ "query { id }")),
     Runs.original).
Proof.
  exact (@visitAll_aborts Sample.collaborators
           [Sample.arguments Sample.getUser "GetUser"]
           (Sample.arguments Sample.unnamed "Anonymous")
           [Sample.arguments Sample.touch "Touch"]
           (constructor Sample.super Sample.rawConfig) eq_refl eq_refl).
Defined.

(** An instance of X3: three visits after the constructor. *)
Lemma visitor_frame_witness :
  @evolves Sample.collaborators (constructor Sample.super Sample.rawConfig) Sample.visited
  /\ config Sample.visited = config (constructor Sample.super Sample.rawConfig)
  /\ _additionalImports Sample.visited = ["import { DocumentNode } from 'graphql';"].
Proof.
  assert (He : @evolves Sample.collaborators (constructor Sample.super Sample.rawConfig)
                 Sample.visited)
    by (apply visitAll_evolves; apply evolves_start).
  split; [exact He |].
  destruct (@visitor_frame Sample.collaborators _ _ He) as [Hc [Hi _]].
  split; [exact Hc | exact Hi].
Defined.

(** An instance of X4: the alias [Types] gives the prefix [Types.]. *)
Lemma records_qualified_witness :
  @reachable Sample.collaborators Sample.observed
  /\ _externalImportPrefix Sample.observed = "Types."
  /\ map operationResultType (_operationsToInclude Sample.observed)
     = ["Types.OnMessageResult"].
Proof.
  split; [exact observed_reachable |].
  split; [| reflexivity].
  exact (proj1 (@records_qualified Sample.collaborators Sample.observed observed_reachable)).
Defined.

(** An instance of X5: document mode [external]. *)
Lemma document_reference_witness :
  fst (@sdkContent Sample.collaborators Sample.observed)
  = inr (Sample.rendered Sample.observed)
  /\ exists acs,
      Sample.rendered Sample.observed = @sdkOf Sample.collaborators Sample.observed acs
      /\ map Action.docVarName acs = ["Operations.OnMessageDocument"].
Proof.
  split; [reflexivity |].
  destruct (@document_reference Sample.collaborators Sample.observed _ eq_refl)
    as [acs [Hout Hall]].
  exists acs. split; [exact Hout |].
  clear Hout. simpl in Hall. first_fields Hall. reflexivity.
Defined.

(** An instance of X6: a visitor as constructed. *)
Lemma sdkContent_empty_witness :
  _operationsToInclude (constructor Sample.super Sample.rawConfig) = []
  /\ @sdkContent Runs.otherCollaborators (constructor Sample.super Sample.rawConfig)
     = (inr "

export type Requester<C = {}, E = unknown> = <R, V>(doc: DocumentNode, vars?: V, options?: C) => Promise<R> | AsyncIterable<R>
export function getSdk<C, E>(requester: Requester<C, E>) {
  return {

  };
}
export type Sdk = ReturnType<typeof getSdk>;",
        constructor Sample.super Sample.rawConfig).
Proof.
  split; [reflexivity |].
  exact (@sdkContent_empty Runs.otherCollaborators
           (constructor Sample.super Sample.rawConfig) eq_refl).
Defined.

(** An instance of X7: the mutation visited after the query. *)
Lemma render_after_visit_witness :
  fst (@sdkContent Sample.collaborators Runs.original) = inr (Sample.rendered Runs.original)
  /\ fst (@sdkContent Sample.collaborators
            (snd (@visit Sample.collaborators (Sample.arguments Sample.touch "Touch")
                    Runs.original)))
     = inr "
    export function GetUser<C, E>(requester: Requester<C, E>, variables: GetUserVariables, options?: C): Promise<GetUserResult> {
      return requester<GetUserResult, GetUserVariables>(GetUserDocument, variables, options) as Promise<GetUserResult>;
    }
    export function Touch<C, E>(requester: Requester<C, E>, variables?: TouchVariables, options?: C): Promise<TouchResult> {
      return requester<TouchResult, TouchVariables>(TouchDocument, variables, options) as Promise<TouchResult>;
    }
export type Requester<C = {}, E = unknown> = <R, V>(doc: DocumentNode, vars?: V, options?: C) => Promise<R> | AsyncIterable<R>
export function getSdk<C, E>(requester: Requester<C, E>) {
  return {
GetUser(variables: GetUserVariables, options?: C): Promise<GetUserResult> {
  return GetUser(requester, variables, options) as Promise<GetUserResult>;
},
Touch(variables?: TouchVariables, options?: C): Promise<TouchResult> {
  return Touch(requester, variables, options) as Promise<TouchResult>;
}
  };
}
export type Sdk = ReturnType<typeof getSdk>;".
Proof.
  split; [reflexivity |].
  destruct (@render_after_visit Sample.collaborators Runs.original
              (Sample.arguments Sample.touch "Touch") {| value := "Touch" |}
              _ eq_refl eq_refl) as [_ [_ Hrun]].
  rewrite Hrun. reflexivity.
Defined.

(** An instance of X8: the same query with another selection set, another
    variable and another label renders alike. *)
Lemma rendering_reads_witness :
  config Runs.original = config Runs.variant
  /\ operationType (hd (recordOf Runs.original Runs.variantArguments)
                      (_operationsToInclude Runs.original))
     <> operationType (hd (recordOf Runs.original Runs.variantArguments)
                         (_operationsToInclude Runs.variant))
  /\ fst (@sdkContent Sample.collaborators Runs.original)
     = fst (@sdkContent Sample.collaborators Runs.variant).
Proof.
  split; [reflexivity |]. split; [discriminate |].
  apply (@rendering_reads Sample.collaborators Runs.original Runs.variant eq_refl).
  repeat constructor.
Defined.
